(** * garmin-pr-plan: the workout encoding and upload pipeline

    A shallow embedding of [garmin_client.py] ([GarminClient._parse_duration],
    [_parse_target], [_get_step_type], [_build_workout_steps],
    [create_workout], [schedule_workout], [push_all_workouts]) and of
    [coach.py] ([analyze_fitness]), with the properties of the design
    document stated and settled against them.

    Conventions of the embedding.
    - A Python [str] is a [string]; a character is read as the code point
      U+0000..U+00FF of its byte.
    - A Python [int] is a [Z]; a Python [float] is a primitive binary64
      [float].
    - A function that may raise returns a [result]. *)

From Stdlib Require Import ZArith List Bool Ascii String Lia.
From Stdlib Require Import Floats.
Import ListNotations.

Local Open Scope string_scope.
Local Open Scope Z_scope.

(** ** Exceptions and fallible results *)

Inductive exn : Type :=
| ValueError
| OverflowError
| ZeroDivisionError
| RuntimeError (msg : string)
| RemoteError (msg : string).

Inductive result (A : Type) : Type :=
| Ok (a : A)
| Raise (e : exn).

Arguments Ok {A} a.
Arguments Raise {A} e.

Definition bind {A B : Type} (r : result A) (k : A -> result B) : result B :=
  match r with
  | Ok a => k a
  | Raise e => Raise e
  end.

Notation "x <- r ;; k" := (bind r (fun x => k))
  (at level 61, r at next level, right associativity).

(** ** Python numbers *)

(** A value that is either an [int] or a [float], as the second component of
    the tuple returned by [_parse_duration] and the [low]/[high] entries
    returned by [_parse_target] are. *)
Inductive pynum : Type :=
| PyInt (z : Z)
| PyFloat (f : float).

(** [float_of_ratio neg n d] is the binary64 number nearest to [n / d]
    (ties to even) for [0 <= n] and [0 < d], negated when [neg]: the
    correctly rounded conversion that Python performs for a decimal
    literal, for [float(str)] and for the true division of two ints.
    The quotient is computed with 64 or more significant bits and the
    remainder is kept as a rounding location. *)
Definition float_of_ratio (neg : bool) (n d : Z) : float :=
  if n =? 0 then (if neg then neg_zero else zero)
  else
    let s := 64 - (Z.log2 n - Z.log2 d) in
    let num := if 0 <=? s then n * 2 ^ s else n in
    let den := if 0 <=? s then d else d * 2 ^ (- s) in
    let q := num / den in
    let r := num mod den in
    let loc := if r =? 0 then loc_Exact
               else loc_Inexact (Z.compare (2 * r) den) in
    SF2Prim (binary_round_aux prec emax neg q (- s) loc).

(** [float(n)] for an int [n]: raises [OverflowError] when [n] is too large
    in magnitude for a finite float. *)
Definition float_of_int (n : Z) : result float :=
  let f := float_of_ratio (n <? 0) (Z.abs n) 1 in
  if is_infinity f then Raise OverflowError else Ok f.

(** [int(f)] for a float [f]: truncation toward zero; [OverflowError] on an
    infinity and [ValueError] on a NaN. *)
Definition int_of_float (f : float) : result Z :=
  match Prim2SF f with
  | S754_nan => Raise ValueError
  | S754_infinity _ => Raise OverflowError
  | S754_zero _ => Ok 0
  | S754_finite s m e =>
      let a := if 0 <=? e then Z.pos m * 2 ^ e else Z.pos m / 2 ^ (- e) in
      Ok (if s then - a else a)
  end.

(** The float literals of the source. *)
Definition lit_1609_34 : float := float_of_ratio false 160934 100.
Definition lit_1_05 : float := float_of_ratio false 105 100.
Definition lit_0_95 : float := float_of_ratio false 95 100.


(** ** Python strings *)

Definition code (c : ascii) : Z := Z.of_N (N_of_ascii c).

(** [c.isdecimal()], the class [\d] of a [str] pattern. *)
Definition is_digit (c : ascii) : bool :=
  (48 <=? code c) && (code c <=? 57).

(** [c.isspace()], the class [\s] of a [str] pattern and the characters
    removed by [str.strip()]. *)
Definition is_space (c : ascii) : bool :=
  let n := code c in
  ((9 <=? n) && (n <=? 13)) || ((28 <=? n) && (n <=? 32))
  || (n =? 133) || (n =? 160).

Definition lower_char (c : ascii) : ascii :=
  let n := code c in
  if ((65 <=? n) && (n <=? 90))
     || ((192 <=? n) && (n <=? 222) && negb (n =? 215))
  then ascii_of_N (Z.to_N (n + 32)) else c.

(** [s.lower()] *)
Fixpoint lower (s : string) : string :=
  match s with
  | EmptyString => EmptyString
  | String c r => String (lower_char c) (lower r)
  end.

Fixpoint lstrip (s : string) : string :=
  match s with
  | EmptyString => EmptyString
  | String c r => if is_space c then lstrip r else s
  end.

Fixpoint rstrip (s : string) : string :=
  match s with
  | EmptyString => EmptyString
  | String c r =>
      match rstrip r with
      | EmptyString => if is_space c then EmptyString else String c EmptyString
      | r' => String c r'
      end
  end.

(** [s.strip()] *)
Definition strip (s : string) : string := rstrip (lstrip s).

(** The longest prefix of [s] whose characters satisfy [p], and the rest. *)
Fixpoint span (p : ascii -> bool) (s : string) : string * string :=
  match s with
  | EmptyString => (EmptyString, EmptyString)
  | String c r =>
      if p c then let '(a, b) := span p r in (String c a, b)
      else (EmptyString, s)
  end.

Fixpoint all_chars (p : ascii -> bool) (s : string) : bool :=
  match s with
  | EmptyString => true
  | String c r => p c && all_chars p r
  end.

(** [sub in s] *)
Fixpoint contains (sub s : string) : bool :=
  prefix sub s ||
  match s with
  | EmptyString => false
  | String _ r => contains sub r
  end.

(** [s.split(sep)] for a one-character separator. *)
Fixpoint split (sep : ascii) (s : string) : list string :=
  match s with
  | EmptyString => [EmptyString]
  | String c r =>
      if Ascii.eqb c sep then EmptyString :: split sep r
      else match split sep r with
           | [] => [String c EmptyString]
           | p :: ps => String c p :: ps
           end
  end.

(** [s in (a, b, ...)] for a tuple of strings. *)
Definition str_in (s : string) (l : list string) : bool :=
  existsb (String.eqb s) l.

(** The value of a string of decimal digits, most significant first. *)
Fixpoint digits_value (acc : Z) (s : string) : Z :=
  match s with
  | EmptyString => acc
  | String c r => digits_value (10 * acc + (code c - 48)) r
  end.

(** The check and the removal of underscores that [int(str)] and
    [float(str)] perform: an underscore is allowed only between two
    digits. [prev] is the character before [s]. *)
Fixpoint strip_underscores (prev : ascii) (s : string) : option string :=
  match s with
  | EmptyString =>
      if Ascii.eqb prev "_" then None else Some EmptyString
  | String c r =>
      if Ascii.eqb c "_" then
        if is_digit prev then strip_underscores c r else None
      else if Ascii.eqb prev "_" && negb (is_digit c) then None
      else option_map (String c) (strip_underscores c r)
  end.

(** An optional sign: [(negative, rest)]. *)
Definition take_sign (s : string) : bool * string :=
  match s with
  | String "-" r => (true, r)
  | String "+" r => (false, r)
  | _ => (false, s)
  end.

(** The blanks that [int(str)] and [float(str)] skip around a number:
    the blanks of ASCII in the C sense, and the blanks above U+007F, which
    the conversion turns into spaces first. The separators U+001C to
    U+001F, which [str.strip()] removes, are not among them. *)
Definition is_num_space (c : ascii) : bool :=
  let n := code c in
  ((9 <=? n) && (n <=? 13)) || (n =? 32) || (n =? 133) || (n =? 160).

Fixpoint num_lstrip (s : string) : string :=
  match s with
  | EmptyString => EmptyString
  | String c r => if is_num_space c then num_lstrip r else s
  end.

Fixpoint num_rstrip (s : string) : string :=
  match s with
  | EmptyString => EmptyString
  | String c r =>
      match num_rstrip r with
      | EmptyString =>
          if is_num_space c then EmptyString else String c EmptyString
      | r' => String c r'
      end
  end.

(** The text of a number without the blanks around it. *)
Definition num_strip (s : string) : string := num_rstrip (num_lstrip s).

(** [sys.int_info.default_max_str_digits]: the largest number of digits
    that [int(str)] accepts in base 10, leading zeros counted and
    underscores not. *)
Definition max_str_digits : Z := 4300.

(** [int(s)] for a [str] in base 10. *)
Definition int_of_str (s : string) : result Z :=
  match strip_underscores "000" (num_strip s) with
  | None => Raise ValueError
  | Some t =>
      let '(neg, ds) := take_sign t in
      match ds with
      | EmptyString => Raise ValueError
      | _ =>
          if all_chars is_digit ds
             && (Z.of_nat (String.length ds) <=? max_str_digits)
          then Ok (if neg then - digits_value 0 ds else digits_value 0 ds)
          else Raise ValueError
      end
  end.

(** The exponent part of a decimal float literal: empty, or [e] or [E],
    an optional sign and one digit or more. *)
Definition parse_exponent (s : string) : option Z :=
  match s with
  | EmptyString => Some 0
  | String c r =>
      if Ascii.eqb c "e" || Ascii.eqb c "E" then
        let '(neg, ds) := take_sign r in
        match ds with
        | EmptyString => None
        | _ =>
            if all_chars is_digit ds
            then Some (if neg then - digits_value 0 ds else digits_value 0 ds)
            else None
        end
      else None
  end.

(** A decimal float literal without its sign: digits, an optional point and
    digits, an optional exponent, with one digit at least before the
    exponent. The result [(n, k)] stands for [n * 10 ^ k]. *)
Definition parse_decimal (s : string) : option (Z * Z) :=
  let '(ip, r1) := span is_digit s in
  let '(fp, r2) :=
    match r1 with
    | String "." r => span is_digit r
    | _ => (EmptyString, r1)
    end in
  match ip ++ fp with
  | EmptyString => None
  | ds =>
      match parse_exponent r2 with
      | None => None
      | Some e => Some (digits_value 0 ds, e - Z.of_nat (length fp))
      end
  end.

(** [float(s)] for a [str]. *)
Definition float_of_str (s : string) : result float :=
  match strip_underscores "000" (num_strip s) with
  | None => Raise ValueError
  | Some t =>
      let '(neg, body) := take_sign t in
      let lb := lower body in
      if str_in lb ["inf"; "infinity"]
      then Ok (if neg then neg_infinity else infinity)
      else if String.eqb lb "nan" then Ok nan
      else
        match parse_decimal body with
        | None => Raise ValueError
        | Some (n, k) =>
            Ok (if 0 <=? k then float_of_ratio neg (n * 10 ^ k) 1
                else float_of_ratio neg n (10 ^ (- k)))
        end
  end.

(** [a / b] for two ints: the correctly rounded quotient. *)
Definition int_truediv (a b : Z) : result float :=
  if b =? 0 then Raise ZeroDivisionError
  else
    let f := float_of_ratio (negb (Bool.eqb (a <? 0) (b <? 0)))
                            (Z.abs a) (Z.abs b) in
    if is_infinity f then Raise OverflowError else Ok f.

(** [x / b] for a float [x] and an int [b]: [b] is converted first. *)
Definition float_truediv_int (x : float) (b : Z) : result float :=
  fb <- float_of_int b ;;
  if PrimFloat.eqb fb zero then Raise ZeroDivisionError
  else Ok (x / fb)%float.

(** ** Regular expressions of the source

    Each pattern is a sequence of greedy character-class runs followed by
    a literal or by an alternation anchored by [$]. The classes of
    adjacent runs are disjoint from each other and from the first
    character of what follows, so that the only way to match is with the
    longest runs, which [span] takes. *)

(** [$] without [re.MULTILINE]: at the end, or before a final newline. *)
Definition at_end (s : string) : bool :=
  match s with
  | EmptyString => true
  | String c EmptyString => Ascii.eqb c "010"
  | _ => false
  end.

(** [(a1|a2|...)$] at the start of [s]: the first alternative that is
    followed by [$]. *)
Fixpoint match_alt_end (alts : list string) (s : string) : option string :=
  match alts with
  | [] => None
  | a :: rest =>
      if String.eqb s a || String.eqb s (a ++ String "010" EmptyString)
      then Some a else match_alt_end rest s
  end.

Definition is_num_char (c : ascii) : bool := is_digit c || Ascii.eqb c ".".

(** [re.match(r'^([\d.]+)\s*(u1|u2|...)$', s)]: groups 1 and 2. *)
Definition match_number_unit (units : list string) (s : string)
  : option (string * string) :=
  let '(num, r) := span is_num_char s in
  match num with
  | EmptyString => None
  | _ =>
      let '(_, u) := span is_space r in
      match match_alt_end units u with
      | Some unit => Some (num, unit)
      | None => None
      end
  end.

Definition dist_units : list string := ["m"; "km"; "mi"; "mile"; "miles"].

Definition time_units : list string :=
  ["min"; "mins"; "minute"; "minutes"; "sec"; "secs"; "second"; "seconds";
   "s"].

(** [re.match(r'^(\d+):(\d+)(?:/?(mi|km))?$', s)]: groups 1, 2 and 3. *)
Definition match_pace (s : string) : option (string * string * option string) :=
  let '(m, r1) := span is_digit s in
  match m, r1 with
  | String _ _, String ":" r2 =>
      let '(sec, r3) := span is_digit r2 in
      match sec with
      | EmptyString => None
      | _ =>
          if at_end r3 then Some (m, sec, None)
          else
            let r4 := match r3 with String "/" r => r | _ => r3 end in
            match match_alt_end ["mi"; "km"] r4 with
            | Some u => Some (m, sec, Some u)
            | None => None
            end
      end
  | _, _ => None
  end.

(** [re.search(r'(\d)', s)]: group 1, the first digit of [s]. *)
Fixpoint search_digit (s : string) : option ascii :=
  match s with
  | EmptyString => None
  | String c r => if is_digit c then Some c else search_digit r
  end.

(** ** The parsers of [GarminClient] *)

(** The dictionaries [{"id": ..., "key": ...}]. *)
Record type_ref : Type := { id : Z; key : string }.

Definition distance_type : type_ref := {| id := 3; key := "distance" |}.
Definition time_type : type_ref := {| id := 2; key := "time" |}.
Definition no_target_type : type_ref := {| id := 1; key := "no.target" |}.
Definition pace_zone_type : type_ref := {| id := 6; key := "pace.zone" |}.
Definition heart_rate_zone_type : type_ref :=
  {| id := 4; key := "heart.rate.zone" |}.

(** The dictionaries [{"low": ..., "high": ...}]; [None] is Python's. *)
Record target_value : Type := { low : option pynum; high : option pynum }.

Definition _parse_duration (duration : string) : result (type_ref * pynum) :=
  let duration := lower (strip duration) in
  match match_number_unit dist_units duration with
  | Some (g1, unit) =>
      value <- float_of_str g1 ;;
      let meters :=
        if String.eqb unit "m" then value
        else if String.eqb unit "km" then (value * 1000)%float
        else if str_in unit ["mi"; "mile"; "miles"]
             then (value * lit_1609_34)%float
        else value in
      Ok (distance_type, PyFloat meters)
  | None =>
      match match_number_unit time_units duration with
      | Some (g1, unit) =>
          value <- float_of_str g1 ;;
          let total_seconds :=
            if str_in unit ["sec"; "secs"; "second"; "seconds"; "s"]
            then value else (value * 60)%float in
          n <- int_of_float total_seconds ;;
          Ok (time_type, PyInt n)
      | None =>
          if contains ":" duration then
            let parts := split ":" duration in
            ms <- (if Nat.eqb (List.length parts) 2
                   then m <- int_of_str (nth 0 parts "") ;;
                        s <- int_of_str (nth 1 parts "") ;;
                        Ok (m, s)
                   else m <- int_of_str (nth 0 parts "") ;;
                        Ok (m, 0)) ;;
            let '(minutes, seconds) := ms in
            Ok (time_type, PyInt (minutes * 60 + seconds))
          else
            match (f <- float_of_str duration ;;
                   n <- int_of_float f ;;
                   Ok (n * 60)) with
            | Ok total_seconds => Ok (time_type, PyInt total_seconds)
            | Raise ValueError => Ok (time_type, PyInt 600)
            | Raise e => Raise e
            end
      end
  end.

Definition _parse_target (target : string) : result (type_ref * target_value) :=
  if String.eqb target "" || str_in (lower target) ["open"; "jog"; "easy"]
  then Ok (no_target_type, {| low := None; high := None |})
  else
    match match_pace (strip target) with
    | Some (g1, g2, unit) =>
        minutes <- int_of_str g1 ;;
        seconds <- int_of_str g2 ;;
        let total_seconds := minutes * 60 + seconds in
        meters_per_second <-
          (if match unit with
              | Some u => String.eqb u "km"
              | None => minutes <? 10
              end
           then int_truediv 1000 total_seconds
           else float_truediv_int lit_1609_34 total_seconds) ;;
        let pace_low := (meters_per_second * lit_1_05)%float in
        let pace_high := (meters_per_second * lit_0_95)%float in
        Ok (pace_zone_type,
            {| low := Some (PyFloat pace_low);
               high := Some (PyFloat pace_high) |})
    | None =>
        match (if contains "zone" (lower target) then search_digit target
               else None) with
        | Some d =>
            zone_num <- int_of_str (String d EmptyString) ;;
            Ok (heart_rate_zone_type,
                {| low := Some (PyInt zone_num);
                   high := Some (PyInt zone_num) |})
        | None => Ok (no_target_type, {| low := None; high := None |})
        end
    end.

Definition _get_step_type (intensity : string) : type_ref :=
  if String.eqb intensity "warmup" then {| id := 1; key := "warmup" |}
  else if String.eqb intensity "cooldown" then {| id := 2; key := "cooldown" |}
  else if String.eqb intensity "rest" then {| id := 4; key := "recovery" |}
  else {| id := 3; key := "interval" |}.

(** A step of the generated plan: a JSON object whose keys may be absent. *)
Record RawStep : Type := {
  step_name : option string;
  duration : option string;
  target : option string;
  intensity : option string
}.

(** [d.get(k, default)] for a key that is present or not. *)
Definition get {A : Type} (v : option A) (default : A) : A :=
  match v with
  | Some a => a
  | None => default
  end.

(** The dictionary appended to [garmin_steps]. The entries [stepId],
    [childStepId] and [description] are always [None]. *)
Record garmin_step : Type := {
  dto_type : string;
  stepOrder : Z;
  stepType : type_ref;
  endCondition : type_ref;
  endConditionValue : pynum;
  targetType : type_ref;
  targetValueOne : option pynum;
  targetValueTwo : option pynum
}.

(** The body of the loop of [_build_workout_steps] at index [i]. *)
Definition build_step (i : Z) (step : RawStep) : result garmin_step :=
  let step_type := _get_step_type (get (intensity step) "active") in
  dur <- _parse_duration (get (duration step) "10:00") ;;
  tgt <- _parse_target (get (target step) "Open") ;;
  let '(duration_type, duration_value) := dur in
  let '(target_type, target_value) := tgt in
  Ok {| dto_type := "ExecutableStepDTO";
        stepOrder := i + 1;
        stepType := step_type;
        endCondition := duration_type;
        endConditionValue := duration_value;
        targetType := target_type;
        targetValueOne := low target_value;
        targetValueTwo := high target_value |}.

(** [for i, step in enumerate(steps)] from index [i] on. *)
Fixpoint build_steps_from (i : Z) (steps : list RawStep)
  : result (list garmin_step) :=
  match steps with
  | [] => Ok []
  | step :: rest =>
      g <- build_step i step ;;
      gs <- build_steps_from (i + 1) rest ;;
      Ok (g :: gs)
  end.

Definition _build_workout_steps (steps : list RawStep)
  : result (list garmin_step) :=
  build_steps_from 0 steps.

(** ** The uploader *)

(** A workout of the generated plan. *)
Record WorkoutDay : Type := {
  date : option string;
  name : option string;
  description : option string;
  steps : option (list RawStep)
}.

(** The request built by [create_workout]: the sport type is the constant
    running type and there is one segment, of order 1. *)
Record workout_request : Type := {
  workoutName : string;
  workoutDescription : string;
  segmentOrder : Z;
  workoutSteps : list garmin_step
}.

(** What a run of the uploader does, in order: the requests sent to the
    platform and, at the end of each iteration of the retry loop, the
    workout, the value of [attempt] and the exception caught, if any. *)
Inductive event : Type :=
| EvUpload (w : workout_request)
| EvSchedule (workout_id : Z) (iso_date : string)
| EvAttempt (workout_name : string) (attempt : Z) (caught : option exn).

Section Uploader.

(** The state of the remote platform. *)
Variable world : Type.

(** The authenticated handle [self.client]: [upload_workout] answers with
    the [workoutId] entry of its response, if there is one;
    [connectapi_schedule] is the POST to
    [/workout-service/schedule/<workout_id>]. Both may raise. *)
Record Client : Type := {
  upload_workout : workout_request -> world -> result (option Z) * world;
  connectapi_schedule : Z -> string -> world -> result unit * world
}.

Record GarminClient : Type := { client : option Client }.

(** [datetime.strptime(date, "%Y-%m-%d").date().isoformat()]. *)
Variable strptime_iso : string -> result string.

(** [str(e)] for an exception. *)
Variable str_exn : exn -> string.

Record state : Type := { remote : world; trace : list event }.

Definition M (A : Type) : Type := state -> result A * state.

Definition ret {A : Type} (a : A) : M A := fun st => (Ok a, st).

Definition raise {A : Type} (e : exn) : M A := fun st => (Raise e, st).

Definition mbind {A B : Type} (m : M A) (k : A -> M B) : M B :=
  fun st =>
    match m st with
    | (Ok a, st') => k a st'
    | (Raise e, st') => (Raise e, st')
    end.

Definition lift {A : Type} (r : result A) : M A := fun st => (r, st).

Definition record (ev : event) (st : state) : state :=
  {| remote := remote st; trace := trace st ++ [ev] |}.

(** A call of the remote platform, recorded in the trace. *)
Definition call {A : Type} (ev : event)
           (f : world -> result A * world) : M A :=
  fun st =>
    let '(r, w') := f (remote st) in
    (r, {| remote := w'; trace := trace st ++ [ev] |}).

Notation "x <~ m ;; k" := (mbind m (fun x => k))
  (at level 61, m at next level, right associativity).

Definition create_workout (self : GarminClient) (workout_data : WorkoutDay)
  : M (option Z) :=
  match client self with
  | None => raise (RuntimeError "Not authenticated")
  | Some c =>
      steps <~ lift (_build_workout_steps (get (steps workout_data) [])) ;;
      let workout :=
        {| workoutName := get (name workout_data) "Training Run";
           workoutDescription := get (description workout_data) "";
           segmentOrder := 1;
           workoutSteps := steps |} in
      call (EvUpload workout) (upload_workout c workout)
  end.

Definition schedule_workout (self : GarminClient) (workout_id : Z)
           (date : string) : M unit :=
  match client self with
  | None => raise (RuntimeError "Not authenticated")
  | Some c =>
      iso <~ lift (strptime_iso date) ;;
      call (EvSchedule workout_id iso) (connectapi_schedule c workout_id iso)
  end.

(** Truth value of the identifier returned by [create_workout]. *)
Definition truthy_id (workout_id : option Z) : bool :=
  match workout_id with
  | Some z => negb (z =? 0)
  | None => false
  end.

(** Truth value of [workout.get("date")]. *)
Definition truthy_str (s : option string) : bool :=
  match s with
  | Some EmptyString => false
  | Some _ => true
  | None => false
  end.

(** The body of the [try] block up to [created_count += 1]. *)
Definition try_publish (self : GarminClient) (workout : WorkoutDay) : M unit :=
  workout_id <~ create_workout self workout ;;
  match workout_id, date workout with
  | Some wid, Some d =>
      if truthy_id workout_id && truthy_str (date workout)
      then schedule_workout self wid d
      else ret tt
  | _, _ => ret tt
  end.

(** The local variables [created_count] and [failed]. *)
Record tally : Type := {
  created_count : Z;
  failed : list (string * string)
}.

(** [for attempt in range(3)], over the attempts that remain. *)
Fixpoint retry_loop (self : GarminClient) (workout : WorkoutDay)
         (wname : string) (attempts : list Z) (t : tally) (st : state)
  : tally * state :=
  match attempts with
  | [] => (t, st)
  | attempt :: rest =>
      match try_publish self workout st with
      | (Ok _, st') =>
          ({| created_count := created_count t + 1; failed := failed t |},
           record (EvAttempt wname attempt None) st')
      | (Raise e, st') =>
          retry_loop self workout wname rest
            (if attempt =? 2
             then {| created_count := created_count t;
                     failed := failed t ++ [(wname, str_exn e)] |}
             else t)
            (record (EvAttempt wname attempt (Some e)) st')
      end
  end.

(** [for i, workout in enumerate(training_plan)]. *)
Fixpoint plan_loop (self : GarminClient) (training_plan : list WorkoutDay)
         (t : tally) (st : state) : tally * state :=
  match training_plan with
  | [] => (t, st)
  | workout :: rest =>
      let wname := get (name workout) "Unknown" in
      let '(t', st') := retry_loop self workout wname [0; 1; 2] t st in
      plan_loop self rest t' st'
  end.

(** The locals of [push_all_workouts] when it reaches its [return]. *)
Definition push_run (self : GarminClient) (training_plan : list WorkoutDay)
           (st : state) : tally * state :=
  plan_loop self training_plan {| created_count := 0; failed := [] |} st.

(** [push_all_workouts] without a console: what is printed does not
    influence the calls or the result. *)
Definition push_all_workouts (self : GarminClient)
           (training_plan : list WorkoutDay) : M Z :=
  match client self with
  | None => raise (RuntimeError "Not authenticated")
  | Some _ =>
      fun st =>
        let '(t, st') := push_run self training_plan st in
        (Ok (created_count t), st')
  end.

End Uploader.

Arguments upload_workout {world} _ _ _.
Arguments connectapi_schedule {world} _ _ _ _.
Arguments client {world} _.
Arguments remote {world} _.
Arguments trace {world} _.
Arguments record {world} _ _.
Arguments ret {world A} _ _.
Arguments create_workout {world} _ _ _.
Arguments schedule_workout {world} _ _ _ _ _.
Arguments try_publish {world} _ _ _ _.
Arguments retry_loop {world} _ _ _ _ _ _ _ _.
Arguments plan_loop {world} _ _ _ _ _ _.
Arguments push_run {world} _ _ _ _ _.
Arguments push_all_workouts {world} _ _ _ _ _.

(** ** The fitness summary of [coach.py] *)

(** A running activity as [get_activities] builds it. The numbers are
    floats; [None] is Python's. *)
Record Activity : Type := {
  act_date : string;
  distance_km : float;
  duration_min : float;
  avg_hr : option float;
  avg_pace_min_km : option float;
  calories : option float
}.

(** The dictionary returned by [analyze_fitness]; [None] is an absent
    key. *)
Record Metrics : Type := {
  has_data : bool;
  message : option string;
  total_runs : option Z;
  m_avg_distance_km : option float;
  total_distance_km : option float;
  m_avg_pace_min_km : option float;
  m_avg_hr : option float;
  recent_runs : option (list Activity)
}.

(** Truth value of an optional float: [None] and zero are false. *)
Definition truthy_float (v : option float) : bool :=
  match v with
  | Some x => negb (PrimFloat.eqb x zero)
  | None => false
  end.

(** [[a[k] for a in activities if a[k]]] *)
Fixpoint truthy_values (field : Activity -> option float)
         (activities : list Activity) : list float :=
  match activities with
  | [] => []
  | a :: rest =>
      match field a with
      | Some x =>
          if truthy_float (field a) then x :: truthy_values field rest
          else truthy_values field rest
      | None => truthy_values field rest
      end
  end.

(** [x / len(l)]: a length is below [2 ^ 63], so that its conversion to a
    float never overflows. *)
Definition truediv_len (x : float) (n : nat) : result float :=
  if Nat.eqb n 0 then Raise ZeroDivisionError
  else Ok (x / float_of_ratio false (Z.of_nat n) 1)%float.

Section Coach.

(** The builtin [sum] over floats: additions from left to right up to
    Python 3.11, compensated from 3.12 on. *)
Variable py_sum : list float -> float.

Definition analyze_fitness (activities : list Activity) : result Metrics :=
  match activities with
  | [] =>
      Ok {| has_data := false;
            message := Some "No running activities found";
            total_runs := None;
            m_avg_distance_km := None;
            total_distance_km := None;
            m_avg_pace_min_km := None;
            m_avg_hr := None;
            recent_runs := None |}
  | _ =>
      avg_distance <-
        truediv_len (py_sum (map distance_km activities))
                    (List.length activities) ;;
      let total := py_sum (map distance_km activities) in
      let paces := truthy_values avg_pace_min_km activities in
      avg_pace <-
        (match paces with
         | [] => Ok None
         | _ => x <- truediv_len (py_sum paces) (List.length paces) ;;
                Ok (Some x)
         end) ;;
      let hrs := truthy_values avg_hr activities in
      avg_heart <-
        (match hrs with
         | [] => Ok None
         | _ => x <- truediv_len (py_sum hrs) (List.length hrs) ;;
                Ok (Some x)
         end) ;;
      Ok {| has_data := true;
            message := None;
            total_runs := Some (Z.of_nat (List.length activities));
            m_avg_distance_km := Some avg_distance;
            total_distance_km := Some total;
            m_avg_pace_min_km := avg_pace;
            m_avg_hr := avg_heart;
            recent_runs := Some (firstn 10 activities) |}
  end.

End Coach.

(** [sum] by additions from left to right, starting from the int [0]. *)
Definition sum_left (l : list float) : float :=
  fold_left PrimFloat.add l zero.

(** ** The variants of the design document

    The tuples that the parsers return, under the names the design
    document gives them. *)

Definition Distance (meters : float) : type_ref * pynum :=
  (distance_type, PyFloat meters).

Definition Time (seconds : Z) : type_ref * pynum :=
  (time_type, PyInt seconds).

Definition NoTarget : type_ref * target_value :=
  (no_target_type, {| low := None; high := None |}).

Definition PaceRange (lo hi : float) : type_ref * target_value :=
  (pace_zone_type, {| low := Some (PyFloat lo); high := Some (PyFloat hi) |}).

Definition HeartRateZone (zone : Z) : type_ref * target_value :=
  (heart_rate_zone_type,
   {| low := Some (PyInt zone); high := Some (PyInt zone) |}).

(** ** Statements of the design document, as it words them *)

(** Design document, DurationParser rule 4, read as multiplying first:
    the seconds of a bare number are the number times 60, truncated. *)
Definition seconds_times_60_truncated (s : string) : result Z :=
  f <- float_of_str s ;;
  int_of_float (f * 60)%float.

(** The strings made of digits and points only: a number without a unit,
    a colon, a sign or an exponent. *)
Definition bare_number (s : string) : bool := all_chars is_num_char s.

(** Design document, TargetParser rule 3: the digit that follows the word
    [zone], at its first occurrence that has one, blanks skipped. *)
Fixpoint digit_after_zone (s : string) : option ascii :=
  match s with
  | EmptyString => None
  | String _ r =>
      if prefix "zone" (lower s) then
        match lstrip (substring 4 (String.length s) s) with
        | String d _ => if is_digit d then Some d else digit_after_zone r
        | EmptyString => None
        end
      else digit_after_zone r
  end.

(** Design document, TargetParser rule 2 for a pace per mile: the band
    around the speed of [total_seconds] per mile. *)
Definition mile_pace_band (total_seconds : Z)
  : result (type_ref * target_value) :=
  speed <- float_truediv_int lit_1609_34 total_seconds ;;
  Ok (PaceRange (speed * lit_1_05) (speed * lit_0_95)).

(** Design document, FitnessSummarizer: the values of a field over the
    records where it is defined. *)
Fixpoint defined_values (field : Activity -> option float)
         (activities : list Activity) : list float :=
  match activities with
  | [] => []
  | a :: rest =>
      match field a with
      | Some x => x :: defined_values field rest
      | None => defined_values field rest
      end
  end.

(** [sum(l) / len(l)], or nothing for an empty list. *)
Definition mean_of (py_sum : list float -> float) (l : list float)
  : option float :=
  match l with
  | [] => None
  | _ => Some (py_sum l / float_of_ratio false (Z.of_nat (List.length l)) 1)%float
  end.

(** The values of a field over the records where it is defined and not
    zero, in the order of the records. *)
Definition selected_values (field : Activity -> option float)
           (activities : list Activity) : list float :=
  map (fun a => get (field a) zero)
      (filter (fun a => truthy_float (field a)) activities).

(** ** Sample inputs *)

(** A platform without state whose every upload raises [msg]. *)
Definition failing_client (msg : string) : GarminClient unit :=
  {| client :=
       Some {| upload_workout := fun _ w => (Raise (RemoteError msg), w);
               connectapi_schedule := fun _ _ w => (Ok tt, w) |} |}.

(** A platform without state whose every upload answers [workout_id]. *)
Definition accepting_client (workout_id : option Z) : GarminClient unit :=
  {| client :=
       Some {| upload_workout := fun _ w => (Ok workout_id, w);
               connectapi_schedule := fun _ _ w => (Ok tt, w) |} |}.

(** The sample dates are in ISO format, which [strptime] and [isoformat]
    give back unchanged. *)
Definition iso_unchanged (d : string) : result string := Ok d.

Definition message_of (e : exn) : string :=
  match e with
  | ValueError => "ValueError"
  | OverflowError => "OverflowError"
  | ZeroDivisionError => "ZeroDivisionError"
  | RuntimeError msg => msg
  | RemoteError msg => msg
  end.

Definition easy_run (title : string) (day : option string) : WorkoutDay :=
  {| date := day;
     name := Some title;
     description := Some "Easy run";
     steps := Some [{| step_name := Some "Run";
                       duration := Some "5 mi";
                       target := Some "8:30/mi";
                       intensity := Some "active" |}] |}.

Definition plan_of_one : list WorkoutDay :=
  [easy_run "Week 1 - Easy" (Some "2025-03-01")].

Definition plan_of_two : list WorkoutDay :=
  [easy_run "Week 1 - Easy" (Some "2025-03-01");
   easy_run "Week 1 - Long" (Some "2025-03-03")].

(** A platform that counts the uploads and raises a different message
    at each. *)
Definition flaky_client : GarminClient nat :=
  {| client :=
       Some {| upload_workout :=
                 fun _ n =>
                   (Raise (RemoteError
                             (nth n ["busy"; "still busy"; "gave up"] "down")),
                    S n);
               connectapi_schedule := fun _ _ n => (Ok tt, n) |} |}.

Definition flaky_start : state nat := {| remote := 0%nat; trace := [] |}.

Definition start : state unit := {| remote := tt; trace := [] |}.


Definition run_with_hr (hr : option float) : Activity :=
  {| act_date := "2025-03-01 07:00:00";
     distance_km := 5;
     duration_min := 30;
     avg_hr := hr;
     avg_pace_min_km := Some 6%float;
     calories := None |}.

Definition runs_with_zero_hr : list Activity :=
  [run_with_hr (Some 0%float); run_with_hr (Some 150%float)].

Definition tempo_step (duration_text : string) : RawStep :=
  {| step_name := Some "Tempo";
     duration := Some duration_text;
     target := Some "7:30/mi";
     intensity := Some "active" |}.

(** ** Outcomes of a run of the uploader *)

(** The outcome of a workout: published, or given up with the message of
    an exception. *)
Definition outcome : Type := option string.

Definition workout_name (w : WorkoutDay) : string := get (name w) "Unknown".

(** The effect of the outcome of a workout on the locals. *)
Definition apply_outcome (wname : string) (o : outcome) (t : tally) : tally :=
  match o with
  | None => {| created_count := created_count t + 1; failed := failed t |}
  | Some msg => {| created_count := created_count t;
                   failed := failed t ++ [(wname, msg)] |}
  end.

(** The number of workouts published. *)
Definition successes (outcomes : list outcome) : Z :=
  Z.of_nat (List.length
              (filter (fun o : outcome =>
                         match o with None => true | Some _ => false end)
                      outcomes)).

(** The failures in the order of the plan. *)
Fixpoint failures_of (plan : list WorkoutDay) (outcomes : list outcome)
  : list (string * string) :=
  match plan, outcomes with
  | w :: plan', Some msg :: outcomes' =>
      (workout_name w, msg) :: failures_of plan' outcomes'
  | _ :: plan', None :: outcomes' => failures_of plan' outcomes'
  | _, _ => []
  end.

(** The ends of iterations of the retry loop in a trace. *)
Definition is_attempt (ev : event) : bool :=
  match ev with
  | EvAttempt _ _ _ => true
  | _ => false
  end.

Definition attempt_events (tr : list event) : list event :=
  filter is_attempt tr.

(** Three failed attempts on each workout of a plan, in order, with the
    exceptions [errs] gives for it. *)
Fixpoint three_failures (plan : list WorkoutDay)
         (errs : list (exn * exn * exn)) : list event :=
  match plan, errs with
  | w :: plan', (e0, e1, e2) :: errs' =>
      EvAttempt (workout_name w) 0 (Some e0)
      :: EvAttempt (workout_name w) 1 (Some e1)
      :: EvAttempt (workout_name w) 2 (Some e2)
      :: three_failures plan' errs'
  | _, _ => []
  end.

(** The failure recorded for each workout when only the exception of the
    last attempt is kept. *)
Fixpoint last_failures (str_exn : exn -> string) (plan : list WorkoutDay)
         (errs : list (exn * exn * exn)) : list (string * string) :=
  match plan, errs with
  | w :: plan', (_, _, e2) :: errs' =>
      (workout_name w, str_exn e2) :: last_failures str_exn plan' errs'
  | _, _ => []
  end.

(** ** What a run does to each workout *)

Section Attempts.

Variable world : Type.
Variable strptime_iso : string -> result string.
Variable str_exn : exn -> string.
Variable self : GarminClient world.

(** [attempted w k st o st']: from the state [st], the attempts at the
    workout [w] numbered [k] and above end in the state [st'] with the
    outcome [o]. An attempt is one run of [try_publish], followed by the
    end of its iteration in the trace. The workout is published by the
    first attempt that does not raise; an attempt that raises is followed
    by the next one, except the attempt numbered 2, whose exception gives
    the message of the failure. *)
Inductive attempted (w : WorkoutDay)
  : Z -> state world -> outcome -> state world -> Prop :=
| attempted_published (k : Z) (st st1 : state world) (u : unit) :
    try_publish strptime_iso self w st = (Ok u, st1) ->
    attempted w k st None (record (EvAttempt (workout_name w) k None) st1)
| attempted_again (k : Z) (st st1 st' : state world) (e : exn)
                  (o : outcome) :
    k <> 2 ->
    try_publish strptime_iso self w st = (Raise e, st1) ->
    attempted w (k + 1)
              (record (EvAttempt (workout_name w) k (Some e)) st1) o st' ->
    attempted w k st o st'
| attempted_given_up (st st1 : state world) (e : exn) :
    try_publish strptime_iso self w st = (Raise e, st1) ->
    attempted w 2 st (Some (str_exn e))
              (record (EvAttempt (workout_name w) 2 (Some e)) st1).

(** [processed plan st outcomes st']: from the state [st], every workout
    of the plan is attempted from its attempt 0, one workout after the
    other in the order of the plan, whatever the outcomes of the
    workouts before it; [outcomes] has the outcome of each and [st'] is
    the state after the last. *)
Inductive processed
  : list WorkoutDay -> state world -> list outcome -> state world -> Prop :=
| processed_none (st : state world) : processed [] st [] st
| processed_next (w : WorkoutDay) (plan : list WorkoutDay)
                 (st st1 st' : state world) (o : outcome)
                 (outcomes : list outcome) :
    attempted w 0 st o st1 ->
    processed plan st1 outcomes st' ->
    processed (w :: plan) st (o :: outcomes) st'.

End Attempts.

Arguments attempted {world} _ _ _ _ _ _ _ _.
Arguments processed {world} _ _ _ _ _ _ _.

(** A platform that counts the uploads, refuses the first four, each
    with its own message, and accepts the others. *)
Definition recovering_client : GarminClient nat :=
  {| client :=
       Some {| upload_workout :=
                 fun _ n =>
                   (if (n <? 4)%nat
                    then Raise (RemoteError
                                  (nth n ["busy"; "still busy"; "gave up"]
                                       "down"))
                    else Ok (Some 7%Z),
                    S n);
               connectapi_schedule := fun _ _ n => (Ok tt, n) |} |}.

(** ** Shapes of text *)

(** The first character of [s], if any, is not in the class [p]. *)
Definition head_outside (p : ascii -> bool) (s : string) : Prop :=
  match s with
  | EmptyString => True
  | String c _ => p c = false
  end.

(** A unit of the patterns: it is not empty, it starts with a character
    that is neither of a number nor a blank, and [lower] and [rstrip]
    leave it as it is. *)
Definition unit_token (u : string) : Prop :=
  u <> "" /\ head_outside is_num_char u /\ head_outside is_space u
  /\ lower u = u /\ rstrip u = u.

(** A character that [strip] and [lower] leave as it is. *)
Definition plain_char (c : ascii) : bool :=
  negb (is_space c) && Ascii.eqb (lower_char c) c.

(** A character other than [sep]. *)
Definition other_than (sep c : ascii) : bool := negb (Ascii.eqb c sep).

(** What may follow the seconds of a pace. *)
Definition pace_suffixes : list string := [""; "/mi"; "mi"; "/km"; "km"].

(** A step whose duration and target are both parsed. *)
Definition step_parses (step : RawStep) : Prop :=
  (exists d, _parse_duration (get (duration step) "10:00") = Ok d)
  /\ exists t, _parse_target (get (target step) "Open") = Ok t.

(** The uploads sent in a trace. *)
Definition is_upload (ev : event) : bool :=
  match ev with
  | EvUpload _ => true
  | _ => false
  end.

Definition upload_events (tr : list event) : list event :=
  filter is_upload tr.

(** ** The loop of [get_activities] *)

(** An activity as the platform returns it: the entries that
    [get_activities] reads, [typeKey] being that of the [activityType]
    entry; [None] is an absent key. The numbers are floats. *)
Record RawActivity : Type := {
  typeKey : option string;
  startTimeLocal : option string;
  raw_distance : option float;
  raw_duration : option float;
  averageHR : option float;
  raw_calories : option float
}.

(** [a / b] for two floats. *)
Definition float_truediv (a b : float) : result float :=
  if PrimFloat.eqb b zero then Raise ZeroDivisionError else Ok (a / b)%float.

(** The test of the loop on the type of the activity. *)
Definition is_running (activity : RawActivity) : bool :=
  let activity_type := get (typeKey activity) "" in
  contains "running" (lower activity_type)
  || contains "run" (lower activity_type).

(** The dictionary appended for a running activity. *)
Definition running_record (activity : RawActivity) : result Activity :=
  let distance := get (raw_distance activity) zero in
  let duration := get (raw_duration activity) zero in
  pace <- (if PrimFloat.ltb zero distance
           then x <- float_truediv (duration / 60) (distance / 1000) ;;
                Ok (Some x)
           else Ok None) ;;
  Ok {| act_date := get (startTimeLocal activity) "";
        distance_km := (distance / 1000)%float;
        duration_min := (duration / 60)%float;
        avg_hr := averageHR activity;
        avg_pace_min_km := pace;
        calories := raw_calories activity |}.

(** [for activity in activities] of [get_activities], on what the
    platform has returned. *)
Fixpoint running_activities (activities : list RawActivity)
  : result (list Activity) :=
  match activities with
  | [] => Ok []
  | activity :: rest =>
      if is_running activity then
        r <- running_record activity ;;
        rs <- running_activities rest ;;
        Ok (r :: rs)
      else running_activities rest
  end.

(** The distance of a running activity does not vanish when it is
    converted to kilometres. *)
Definition distance_converts (activity : RawActivity) : Prop :=
  PrimFloat.ltb zero (get (raw_distance activity) zero) = true ->
  PrimFloat.eqb (get (raw_distance activity) zero / 1000) zero = false.

(** What the loop keeps of an activity and what it appends for it. *)
Definition recorded_as (activity : RawActivity) (r : Activity) : Prop :=
  act_date r = get (startTimeLocal activity) ""
  /\ distance_km r = (get (raw_distance activity) zero / 1000)%float
  /\ duration_min r = (get (raw_duration activity) zero / 60)%float
  /\ avg_hr r = averageHR activity
  /\ calories r = raw_calories activity
  /\ avg_pace_min_km r
     = (if PrimFloat.ltb zero (get (raw_distance activity) zero)
        then Some (get (raw_duration activity) zero / 60
                   / (get (raw_distance activity) zero / 1000))%float
        else None).

Definition trail_run (metres : option float) : RawActivity :=
  {| typeKey := Some "trail_running";
     startTimeLocal := Some "2025-03-01 07:00:00";
     raw_distance := metres;
     raw_duration := Some 1800%float;
     averageHR := Some 150%float;
     raw_calories := None |}.

Definition bike_ride : RawActivity :=
  {| typeKey := Some "cycling";
     startTimeLocal := Some "2025-03-02 07:00:00";
     raw_distance := Some 20000%float;
     raw_duration := Some 3600%float;
     averageHR := None;
     raw_calories := None |}.

(** A workout with a step that cannot be encoded. *)
Definition broken_run : WorkoutDay :=
  {| date := Some "2025-03-05";
     name := Some "Week 1 - Tempo";
     description := None;
     steps := Some [tempo_step "20:00"; tempo_step "10:00 easy"] |}.

(** A platform that accepts the uploads and refuses to schedule them. *)
Definition refusing_client : GarminClient unit :=
  {| client :=
       Some {| upload_workout := fun _ w => (Ok (Some 7%Z), w);
               connectapi_schedule :=
                 fun _ _ w => (Raise (RemoteError "conflict"), w) |} |}.

(** ** The text of the plan in the answer of the generator *)

(** [s.split(sep)] for a separator of one character or more, matched from
    left to right without overlap; [skip] is the number of characters of
    the separator just matched that are still to pass. *)
Fixpoint split_on (sep : string) (skip : nat) (s : string) : list string :=
  match s with
  | EmptyString => [EmptyString]
  | String c r =>
      match skip with
      | S k => split_on sep k r
      | O =>
          if prefix sep s
          then EmptyString :: split_on sep (String.length sep - 1) r
          else match split_on sep 0 r with
               | [] => [String c EmptyString]
               | p :: ps => String c p :: ps
               end
      end
  end.

Definition fence : string := "```".
Definition json_fence : string := "```json".

(** [text.split(opening)[1].split("```")[0]]; [None] is an [IndexError]. *)
Definition between_fences (opening text : string) : option string :=
  match nth_error (split_on opening 0 text) 1 with
  | Some segment => nth_error (split_on fence 0 segment) 0
  | None => None
  end.

(** The argument of [json.loads] in [generate_training_plan], from the
    text of the answer; [None] is an [IndexError]. *)
Definition plan_text (text : string) : option string :=
  let response_text := strip text in
  match (if contains json_fence response_text
         then between_fences json_fence response_text
         else if contains fence response_text
              then between_fences fence response_text
              else Some response_text) with
  | Some response_text => Some (strip response_text)
  | None => None
  end.

(** The first part of a split. *)
Definition first_part (sep s : string) : string :=
  hd EmptyString (split_on sep 0 s).

(** A character other than the backtick. *)
Definition no_tick (c : ascii) : bool := other_than "`" c.

(** ** The prompt for the code of the second factor *)

(** [c.isdigit()]: the decimal digits and the superscript digits. *)
Definition isdigit (c : ascii) : bool :=
  is_digit c || (code c =? 178)%Z || (code c =? 179)%Z || (code c =? 185)%Z.

(** [''.join(c for c in s if p(c))] *)
Fixpoint keep (p : ascii -> bool) (s : string) : string :=
  match s with
  | EmptyString => EmptyString
  | String c r => if p c then String c (keep p r) else keep p r
  end.

(** [mfa_prompt] of [authenticate] on the lines that the user types, one
    per call of [input]; [None] when the lines are used up before one is
    accepted. *)
Fixpoint mfa_prompt (lines : list string) : option string :=
  match lines with
  | [] => None
  | code :: rest =>
      let digits := keep isdigit code in
      if Nat.eqb (String.length digits) 6 then Some digits
      else mfa_prompt rest
  end.

(** [c * n], the character [c] repeated [n] times. *)
Definition copies (n : nat) (c : ascii) : string :=
  string_of_list_ascii (repeat c n).

(** * Properties *)

(** ** DurationParser *)

(** C1. [_parse_duration] is not total: on ["10:00 easy"] neither unit
    pattern matches, the text contains a colon, and [int("00 easy")]
    raises [ValueError] outside of the [try] block that provides the
    default. *)
Theorem C1_parse_duration_raises :
  _parse_duration "10:00 easy" = Raise ValueError.
Proof. vm_compute. reflexivity. Qed.

(** The examples of the design document that the code does satisfy. *)
Lemma parse_duration_examples :
  _parse_duration "800m" = Ok (Distance 800)
  /\ _parse_duration "2 mi" = Ok (Distance (2 * lit_1609_34))
  /\ _parse_duration "10:00" = Ok (Time 600)
  /\ _parse_duration "90 sec" = Ok (Time 90)
  /\ _parse_duration "garbage" = Ok (Time 600).
Proof. repeat split; vm_compute; reflexivity. Qed.

(** The default is not reached either when the text reads as an infinite
    float: [int(float("inf"))] raises [OverflowError], which the [except]
    clause does not catch. *)
Lemma parse_duration_inf_raises :
  _parse_duration "inf" = Raise OverflowError.
Proof. vm_compute. reflexivity. Qed.

(** C4, as stated, fails on ["2.5"]: the code answers [Time 120], not the
    150 seconds of 2.5 times 60. *)
Lemma C4_counterexample :
  seconds_times_60_truncated "2.5" = Ok 150
  /\ _parse_duration "2.5" = Ok (Time 120)
  /\ ~ (exists n, seconds_times_60_truncated "2.5" = Ok n
                  /\ _parse_duration "2.5" = Ok (Time n)).
Proof.
  assert (H1 : seconds_times_60_truncated "2.5" = Ok 150)
    by (vm_compute; reflexivity).
  assert (H2 : _parse_duration "2.5" = Ok (Time 120))
    by (vm_compute; reflexivity).
  repeat split; trivial.
  intros [n [Hn Hp]]. rewrite H1 in Hn. rewrite H2 in Hp.
  inversion Hn; subst. discriminate Hp.
Qed.

(** ** TargetParser *)

(** The examples of the design document that the code does satisfy. *)
Lemma parse_target_examples :
  _parse_target "jog" = Ok NoTarget
  /\ _parse_target "Open" = Ok NoTarget
  /\ _parse_target "Zone 3" = Ok (HeartRateZone 3)
  /\ _parse_duration "400m" = Ok (Distance 400).
Proof. repeat split; vm_compute; reflexivity. Qed.

(** C5, as stated, fails on ["5k zone 3"]: the digit that follows [zone]
    is 3, the code answers zone 5, the first digit of the text. *)
Lemma C5_counterexample :
  digit_after_zone "5k zone 3" = Some "3"%char
  /\ _parse_target "5k zone 3" = Ok (HeartRateZone 5)
  /\ _parse_target "5k zone 3" <> Ok (HeartRateZone 3).
Proof.
  repeat split; try (vm_compute; reflexivity).
  vm_compute. discriminate.
Qed.

(** C6, as stated, fails: the bounds for ["7:30/mi"] are not those of a
    base of 300 seconds per mile. *)
Lemma C6_counterexample :
  _parse_target "7:30/mi" <> mile_pace_band 300.
Proof. vm_compute. discriminate. Qed.

(** C6, amended: ["7:30/mi"] yields the pace band of a base of 450
    seconds per mile, [low] being 1.05 times and [high] 0.95 times the
    base speed [1609.34 / 450], and [low] is the larger of the two. *)
Theorem C6_pace_7_30_per_mile :
  exists speed lo hi,
    float_truediv_int lit_1609_34 450 = Ok speed
    /\ lo = (speed * lit_1_05)%float
    /\ hi = (speed * lit_0_95)%float
    /\ _parse_target "7:30/mi" = Ok (PaceRange lo hi)
    /\ _parse_target "7:30/mi" = mile_pace_band (7 * 60 + 30)
    /\ PrimFloat.ltb hi lo = true.
Proof.
  eexists. eexists. eexists.
  split; [vm_compute; reflexivity |].
  split; [reflexivity |].
  split; [reflexivity |].
  repeat split; vm_compute; reflexivity.
Qed.

(** *** Characters and strings of digits and points *)

Lemma num_char_plain (c : ascii) :
  is_num_char c = true ->
  is_space c = false /\ lower_char c = c /\ c <> ":"%char.
Proof.
  destruct c as [[] [] [] [] [] [] [] []]; vm_compute; intro H;
    try discriminate H; repeat split; discriminate.
Qed.

Lemma digit_char_value (c : ascii) :
  is_digit c = true -> int_of_str (String c EmptyString) = Ok (code c - 48).
Proof.
  destruct c as [[] [] [] [] [] [] [] []]; vm_compute; intro H;
    try discriminate H; reflexivity.
Qed.

Lemma search_digit_is_digit (s : string) (c : ascii) :
  search_digit s = Some c -> is_digit c = true.
Proof.
  induction s as [| a r IH]; simpl; [discriminate |].
  destruct (is_digit a) eqn:Ha; [| exact IH].
  intro H. inversion H; subst. exact Ha.
Qed.

Section BareNumbers.

Variable s : string.
Hypothesis Hbare : bare_number s = true.

Lemma bare_lower : lower s = s.
Proof.
  revert Hbare. unfold bare_number.
  induction s as [| c r IH]; simpl; [reflexivity |].
  intro H. apply andb_prop in H. destruct H as [Hc Hr].
  destruct (num_char_plain c Hc) as [_ [Hl _]].
  rewrite Hl, (IH Hr). reflexivity.
Qed.

Lemma bare_lstrip : lstrip s = s.
Proof.
  revert Hbare. unfold bare_number.
  destruct s as [| c r]; simpl; [reflexivity |].
  intro H. apply andb_prop in H. destruct H as [Hc _].
  destruct (num_char_plain c Hc) as [Hs _]. rewrite Hs. reflexivity.
Qed.

Lemma bare_rstrip : rstrip s = s.
Proof.
  revert Hbare. unfold bare_number.
  induction s as [| c r IH]; simpl; [reflexivity |].
  intro H. apply andb_prop in H. destruct H as [Hc Hr].
  destruct (num_char_plain c Hc) as [Hs _].
  rewrite (IH Hr), Hs. destruct r; reflexivity.
Qed.

Lemma bare_strip : strip s = s.
Proof. unfold strip. rewrite bare_lstrip. apply bare_rstrip. Qed.

Lemma bare_span : span is_num_char s = (s, EmptyString).
Proof.
  revert Hbare. unfold bare_number.
  induction s as [| c r IH]; simpl; [reflexivity |].
  intro H. apply andb_prop in H. destruct H as [Hc Hr].
  rewrite Hc, (IH Hr). reflexivity.
Qed.

Lemma bare_no_colon : contains ":" s = false.
Proof.
  revert Hbare. unfold bare_number.
  induction s as [| c r IH]; [reflexivity |].
  intro H. simpl in H. apply andb_prop in H. destruct H as [Hc Hr].
  destruct (num_char_plain c Hc) as [_ [_ Hn]].
  cbn [contains prefix]. rewrite (IH Hr).
  destruct (ascii_dec ":" c) as [E | _]; [| reflexivity].
  exfalso. apply Hn. symmetry. exact E.
Qed.

Lemma bare_no_unit (units : list string) :
  match_alt_end units EmptyString = None ->
  match_number_unit units s = None.
Proof.
  intro Hu. unfold match_number_unit. rewrite bare_span.
  destruct s; [reflexivity |]. cbn [span]. rewrite Hu. reflexivity.
Qed.

(** On a bare number the result of [_parse_duration] is that of its last
    branch. *)
Lemma parse_duration_bare :
  _parse_duration s =
  match (f <- float_of_str s ;; n <- int_of_float f ;; Ok (n * 60)) with
  | Ok total_seconds => Ok (Time total_seconds)
  | Raise ValueError => Ok (Time 600)
  | Raise e => Raise e
  end.
Proof.
  unfold _parse_duration. rewrite bare_strip, bare_lower.
  rewrite (bare_no_unit dist_units eq_refl).
  rewrite (bare_no_unit time_units eq_refl).
  rewrite bare_no_colon. reflexivity.
Qed.

End BareNumbers.

(** C4, amended: for every bare number, the seconds are the number
    truncated toward zero to whole minutes and then multiplied by 60;
    ["2.5"] yields [Time 120]. *)
Theorem C4_bare_number_whole_minutes (s : string) (f : float) (n : Z) :
  bare_number s = true ->
  float_of_str s = Ok f ->
  int_of_float f = Ok n ->
  _parse_duration s = Ok (Time (n * 60)).
Proof.
  intros Hb Hf Hn. rewrite (parse_duration_bare s Hb).
  rewrite Hf. cbn [bind]. rewrite Hn. reflexivity.
Qed.

Lemma C4_bare_number_whole_minutes_witness :
  bare_number "2.5" = true
  /\ float_of_str "2.5" = Ok 2.5%float
  /\ int_of_float 2.5 = Ok 2
  /\ _parse_duration "2.5" = Ok (Time 120).
Proof.
  split; [reflexivity |].
  split; [vm_compute; reflexivity |].
  split; [vm_compute; reflexivity |].
  apply (C4_bare_number_whole_minutes "2.5" 2.5%float 2);
    vm_compute; reflexivity.
Defined.

(** C5, amended: for a target that is not empty, not open, jog or easy,
    and not a pace, the result is a heart-rate zone exactly when the
    lowercased text contains [zone] and the text contains a digit; the
    zone is the first digit of the text, wherever it stands. *)
Theorem C5_zone_first_digit (target : string) (d : Z) :
  target <> "" ->
  str_in (lower target) ["open"; "jog"; "easy"] = false ->
  match_pace (strip target) = None ->
  (_parse_target target = Ok (HeartRateZone d)
   <-> contains "zone" (lower target) = true
       /\ exists c, search_digit target = Some c /\ d = code c - 48).
Proof.
  intros Hne Hkw Hpace. unfold _parse_target.
  apply String.eqb_neq in Hne. rewrite Hne, Hkw, Hpace. cbn [orb].
  destruct (contains "zone" (lower target)).
  - destruct (search_digit target) as [c |] eqn:Hd.
    + rewrite (digit_char_value c (search_digit_is_digit _ _ Hd)).
      cbn [bind]. split.
      * intro H. split; [reflexivity |]. exists c. split; [reflexivity |].
        unfold HeartRateZone in H. inversion H. reflexivity.
      * intros [_ [c' [Hc' Hv]]]. inversion Hc'; subst. reflexivity.
    + split; [intro H; discriminate H |].
      intros [_ [c' [Hc' _]]]. discriminate Hc'.
  - split; [intro H; discriminate H |].
    intros [H _]. discriminate H.
Qed.

Lemma C5_zone_first_digit_witness :
  _parse_target "Zone 3" = Ok (HeartRateZone 3).
Proof.
  apply (C5_zone_first_digit "Zone 3" 3).
  - discriminate.
  - reflexivity.
  - reflexivity.
  - split; [reflexivity |]. exists "3"%char. split; reflexivity.
Defined.

(** ** FitnessSummarizer *)

Lemma truediv_len_pos (x : float) (n : nat) :
  n <> 0%nat ->
  truediv_len x n = Ok (x / float_of_ratio false (Z.of_nat n) 1)%float.
Proof.
  intro H. unfold truediv_len.
  destruct n; [contradiction | reflexivity].
Qed.

Lemma mean_of_truediv (py_sum : list float -> float) (l : list float) :
  match l with
  | [] => Ok None
  | _ => x <- truediv_len (py_sum l) (List.length l) ;; Ok (Some x)
  end = Ok (mean_of py_sum l).
Proof.
  destruct l as [| x l]; [reflexivity |].
  rewrite truediv_len_pos by discriminate. reflexivity.
Qed.

(** The comprehension of the source keeps the records that [filter]
    keeps. *)
Lemma truthy_values_selected (field : Activity -> option float)
      (activities : list Activity) :
  truthy_values field activities = selected_values field activities.
Proof.
  unfold selected_values.
  induction activities as [| a rest IH]; [reflexivity |].
  cbn [truthy_values filter].
  destruct (field a) as [x |] eqn:Hf.
  - destruct (truthy_float (Some x)); cbn [map]; rewrite IH; [| reflexivity].
    rewrite Hf. reflexivity.
  - cbn [truthy_float]. exact IH.
Qed.

(** What [analyze_fitness] returns on a sequence that is not empty. *)
Lemma analyze_fitness_nonempty (py_sum : list float -> float)
      (a : Activity) (rest : list Activity) :
  let activities := a :: rest in
  analyze_fitness py_sum activities =
  Ok {| has_data := true;
        message := None;
        total_runs := Some (Z.of_nat (List.length activities));
        m_avg_distance_km :=
          Some (py_sum (map distance_km activities)
                / float_of_ratio false
                    (Z.of_nat (List.length activities)) 1)%float;
        total_distance_km := Some (py_sum (map distance_km activities));
        m_avg_pace_min_km :=
          mean_of py_sum (truthy_values avg_pace_min_km activities);
        m_avg_hr := mean_of py_sum (truthy_values avg_hr activities);
        recent_runs := Some (firstn 10 activities) |}.
Proof.
  intro activities. unfold analyze_fitness. subst activities.
  rewrite truediv_len_pos by discriminate. cbn [bind].
  rewrite !mean_of_truediv. cbn [bind]. reflexivity.
Qed.

(** C7. On the empty sequence the result has [has_data] false and no
    aggregate, and it is obtained without the division by the count,
    which would raise [ZeroDivisionError]; on a sequence that is not
    empty the total distance is the sum of the distances and the average
    distance is that sum divided by the number of records. *)
Theorem C7_summary_distance (py_sum : list float -> float) :
  (exists m, analyze_fitness py_sum [] = Ok m
             /\ has_data m = false
             /\ total_runs m = None
             /\ m_avg_distance_km m = None
             /\ total_distance_km m = None
             /\ m_avg_pace_min_km m = None
             /\ m_avg_hr m = None
             /\ recent_runs m = None)
  /\ (forall x, truediv_len x (@List.length Activity []) = Raise ZeroDivisionError)
  /\ (forall a rest,
         let activities := a :: rest in
         let total := py_sum (map distance_km activities) in
         exists m, analyze_fitness py_sum activities = Ok m
                   /\ has_data m = true
                   /\ total_distance_km m = Some total
                   /\ m_avg_distance_km m =
                      Some (total / float_of_ratio false
                                      (Z.of_nat (List.length activities)) 1)%float).
Proof.
  split; [| split].
  - eexists. split; [reflexivity |]. repeat split.
  - reflexivity.
  - intros a rest activities total. eexists.
    split; [apply analyze_fitness_nonempty |].
    cbn [has_data total_distance_km m_avg_distance_km]. repeat split.
Qed.

(** C8, as stated, fails on two runs with heart rates 0 and 150: the
    mean over the defined values is 75, the code answers 150. *)
Lemma C8_counterexample :
  mean_of sum_left (defined_values avg_hr runs_with_zero_hr) = Some 75%float
  /\ exists m, analyze_fitness sum_left runs_with_zero_hr = Ok m
               /\ m_avg_hr m = Some 150%float
               /\ m_avg_hr m
                  <> mean_of sum_left (defined_values avg_hr runs_with_zero_hr).
Proof.
  split; [vm_compute; reflexivity |].
  eexists. split; [vm_compute; reflexivity |].
  split; [reflexivity |]. vm_compute. discriminate.
Qed.

(** C8, amended: on a sequence that is not empty, the pace mean is the
    mean over exactly the records whose pace is defined and not zero, and
    the heart-rate mean over exactly the records whose heart rate is
    defined and not zero; no value is filled in for the others, and a
    mean is absent when no record is kept for it. *)
Theorem C8_means_over_truthy (py_sum : list float -> float)
        (a : Activity) (rest : list Activity) :
  let activities := a :: rest in
  exists m, analyze_fitness py_sum activities = Ok m
            /\ m_avg_pace_min_km m =
               mean_of py_sum (selected_values avg_pace_min_km activities)
            /\ m_avg_hr m =
               mean_of py_sum (selected_values avg_hr activities)
            /\ (selected_values avg_pace_min_km activities = []
                -> m_avg_pace_min_km m = None)
            /\ (selected_values avg_hr activities = []
                -> m_avg_hr m = None).
Proof.
  intro activities. subst activities. eexists.
  split; [apply analyze_fitness_nonempty |].
  cbn [m_avg_pace_min_km m_avg_hr].
  rewrite !truthy_values_selected.
  split; [reflexivity |]. split; [reflexivity |].
  split; intro H; rewrite H; reflexivity.
Qed.

(** ** StepEncoder *)

(** C9. [_build_workout_steps] does not output a step for every input:
    a step whose duration is ["10:00 easy"] makes it raise, by the same
    defect as in C1. *)
Theorem C9_build_steps_raises :
  _build_workout_steps [tempo_step "10:00 easy"] = Raise ValueError.
Proof. vm_compute. reflexivity. Qed.

(** When [_build_workout_steps] returns, there is one step per input step
    and the order of each is its position plus one. *)
Lemma build_steps_from_order (steps : list RawStep) :
  forall (i : Z) (out : list garmin_step),
    build_steps_from i steps = Ok out ->
    List.length out = List.length steps
    /\ forall (k : nat) (g : garmin_step),
        nth_error out k = Some g -> stepOrder g = i + Z.of_nat k + 1.
Proof.
  induction steps as [| step rest IH]; intros i out H.
  - inversion H; subst. split; [reflexivity |].
    intros k g Hk. destruct k; discriminate Hk.
  - cbn [build_steps_from] in H.
    destruct (build_step i step) as [g0 | e] eqn:Hg; [| discriminate H].
    cbn [bind] in H.
    destruct (build_steps_from (i + 1) rest) as [gs | e] eqn:Hr;
      [| discriminate H].
    cbn [bind] in H. inversion H; subst out. clear H.
    destruct (IH _ _ Hr) as [Hlen Hord].
    split; [cbn [List.length]; rewrite Hlen; reflexivity |].
    intros k g Hk. destruct k as [| k].
    + cbn [nth_error] in Hk. inversion Hk; subst g.
      unfold build_step in Hg.
      destruct (_parse_duration _) as [[dt dv] | ?]; [| discriminate Hg].
      cbn [bind] in Hg.
      destruct (_parse_target _) as [[tt tv] | ?]; [| discriminate Hg].
      cbn [bind] in Hg. inversion Hg. cbn [stepOrder]. lia.
    + cbn [nth_error] in Hk. rewrite (Hord k g Hk). lia.
Qed.

(** It returns as soon as every duration and every target is parsed. *)
Lemma build_steps_from_total (steps : list RawStep) :
  Forall (fun step =>
            (exists d, _parse_duration (get (duration step) "10:00") = Ok d)
            /\ exists t, _parse_target (get (target step) "Open") = Ok t)
         steps ->
  forall i, exists out, build_steps_from i steps = Ok out.
Proof.
  induction 1 as [| step rest [[d Hd] [t Ht]] _ IH]; intro i.
  - exists []. reflexivity.
  - destruct (IH (i + 1)) as [gs Hgs].
    cbn [build_steps_from]. unfold build_step. rewrite Hd, Ht.
    cbn [bind]. destruct d, t. cbn [bind]. rewrite Hgs. cbn [bind].
    eexists. reflexivity.
Qed.

(** ** PlanUploader *)

Local Open Scope list_scope.

Section UploaderProperties.

Variable world : Type.
Variable strptime_iso : string -> result string.
Variable str_exn : exn -> string.
Variable self : GarminClient world.

(** [create_workout] adds to the trace at most the upload it sends. *)
Lemma create_workout_trace (w : WorkoutDay) (st st1 : state world)
      (r : result (option Z)) :
  create_workout self w st = (r, st1) ->
  exists evs, trace st1 = trace st ++ evs
              /\ forall ev, In ev evs -> exists req, ev = EvUpload req.
Proof.
  unfold create_workout. destruct (client self) as [c |].
  - unfold mbind, lift, call.
    destruct (_build_workout_steps _) as [gs | e].
    + destruct (upload_workout c _ (remote st)) as [r' w'].
      intro H. inversion H; subst. cbn [trace].
      eexists. split; [reflexivity |].
      intros ev [Hev | []]. eexists. symmetry. exact Hev.
    + intro H. inversion H; subst. exists [].
      split; [symmetry; apply app_nil_r | intros ev []].
  - unfold raise. intro H. inversion H; subst. exists [].
    split; [symmetry; apply app_nil_r | intros ev []].
Qed.

Lemma create_workout_attempts (w : WorkoutDay) (st st1 : state world)
      (r : result (option Z)) :
  create_workout self w st = (r, st1) ->
  attempt_events (trace st1) = attempt_events (trace st).
Proof.
  intro H. destruct (create_workout_trace _ _ _ _ H) as [evs [Ht Hev]].
  rewrite Ht. unfold attempt_events. rewrite filter_app.
  assert (Hnil : filter is_attempt evs = []).
  { clear Ht. induction evs as [| ev evs IH]; [reflexivity |].
    cbn [filter]. destruct (Hev ev (or_introl eq_refl)) as [req ->].
    cbn [is_attempt]. apply IH. intros ev' Hin. apply Hev. right. exact Hin. }
  rewrite Hnil. apply app_nil_r.
Qed.

(** An exception of [create_workout] is one of the attempt. *)
Lemma try_publish_create_fails (w : WorkoutDay) (st st1 : state world)
      (e : exn) :
  create_workout self w st = (Raise e, st1) ->
  try_publish strptime_iso self w st = (Raise e, st1).
Proof. intro H. unfold try_publish, mbind. rewrite H. reflexivity. Qed.

(** Without an identifier or without a date, the attempt ends after the
    upload. *)
Lemma try_publish_no_schedule (w : WorkoutDay) (st st1 : state world)
      (wid : option Z) :
  create_workout self w st = (Ok wid, st1) ->
  truthy_id wid = false \/ truthy_str (date w) = false ->
  try_publish strptime_iso self w st = (Ok tt, st1).
Proof.
  intros H Hf. unfold try_publish, mbind. rewrite H.
  destruct wid as [z |]; [| reflexivity].
  destruct (date w) as [d |]; [| reflexivity].
  destruct Hf as [Hf | Hf]; rewrite Hf; [reflexivity |].
  rewrite andb_false_r. reflexivity.
Qed.

(** The retry loop ends with one outcome for the workout. *)
Lemma retry_loop_outcome (w : WorkoutDay) (t : tally) (st : state world) :
  exists (o : outcome) (st' : state world),
    retry_loop strptime_iso str_exn self w (workout_name w) [0; 1; 2] t st
    = (apply_outcome (workout_name w) o t, st').
Proof.
  cbn [retry_loop].
  destruct (try_publish strptime_iso self w st) as [[u | e0] st1];
    [exists None; eexists; reflexivity |].
  destruct (try_publish strptime_iso self w _) as [[u | e1] st2];
    [exists None; eexists; reflexivity |].
  destruct (try_publish strptime_iso self w _) as [[u | e2] st3];
    [exists None; eexists; reflexivity |].
  exists (Some (str_exn e2)). eexists. reflexivity.
Qed.

Lemma successes_cons (o : outcome) (outcomes : list outcome) :
  successes (o :: outcomes)
  = (match o with None => 1 | Some _ => 0 end) + successes outcomes.
Proof.
  unfold successes. cbn [filter]. destruct o; cbn [List.length]; lia.
Qed.

(** The loop over the plan gives every workout its outcome. *)
Lemma plan_loop_outcomes (plan : list WorkoutDay) :
  forall (t : tally) (st : state world),
  exists (outcomes : list outcome) (t' : tally) (st' : state world),
    plan_loop strptime_iso str_exn self plan t st = (t', st')
    /\ List.length outcomes = List.length plan
    /\ created_count t' = created_count t + successes outcomes
    /\ failed t' = failed t ++ failures_of plan outcomes.
Proof.
  induction plan as [| w plan IH]; intros t st.
  - exists [], t, st. cbn [plan_loop List.length failures_of].
    rewrite app_nil_r. unfold successes. cbn [filter List.length].
    split; [reflexivity |]. split; [reflexivity |].
    split; [lia | reflexivity].
  - cbn [plan_loop].
    destruct (retry_loop_outcome w t st) as [o [st1 Hr]].
    change (get (name w) "Unknown") with (workout_name w).
    rewrite Hr.
    destruct (IH (apply_outcome (workout_name w) o t) st1)
      as [outcomes [t' [st' [Hp [Hl [Hc Hf]]]]]].
    exists (o :: outcomes), t', st'.
    split; [exact Hp |].
    split; [cbn [List.length]; rewrite Hl; reflexivity |].
    rewrite successes_cons, Hc, Hf.
    destruct o as [msg |]; cbn [apply_outcome created_count failed failures_of].
    + split; [lia |]. rewrite <- app_assoc. reflexivity.
    + split; [lia | reflexivity].
Qed.

Lemma attempt_events_record (st : state world) (wname : string) (k : Z)
      (caught : option exn) :
  attempt_events (trace (record (EvAttempt wname k caught) st))
  = attempt_events (trace st) ++ [EvAttempt wname k caught].
Proof.
  unfold record, attempt_events. cbn [trace]. rewrite filter_app. reflexivity.
Qed.

(** When every call of [create_workout] raises, the retry loop makes its
    three attempts and keeps the exception of the last one. *)
Lemma retry_loop_all_fail (w : WorkoutDay) (t : tally) (st : state world) :
  (forall st0, exists e st1, create_workout self w st0 = (Raise e, st1)) ->
  exists (e0 e1 e2 : exn) (st' : state world),
    retry_loop strptime_iso str_exn self w (workout_name w) [0; 1; 2] t st
    = ({| created_count := created_count t;
          failed := failed t ++ [(workout_name w, str_exn e2)] |}, st')
    /\ attempt_events (trace st')
       = attempt_events (trace st)
         ++ [EvAttempt (workout_name w) 0 (Some e0);
             EvAttempt (workout_name w) 1 (Some e1);
             EvAttempt (workout_name w) 2 (Some e2)].
Proof.
  intro Hfail. cbn [retry_loop].
  destruct (Hfail st) as [e0 [st1 H0]].
  rewrite (try_publish_create_fails _ _ _ _ H0).
  destruct (Hfail (record (EvAttempt (workout_name w) 0 (Some e0)) st1))
    as [e1 [st2 H1]].
  rewrite (try_publish_create_fails _ _ _ _ H1).
  destruct (Hfail (record (EvAttempt (workout_name w) 1 (Some e1)) st2))
    as [e2 [st3 H2]].
  rewrite (try_publish_create_fails _ _ _ _ H2).
  exists e0, e1, e2. eexists. split; [reflexivity |].
  rewrite attempt_events_record, (create_workout_attempts _ _ _ _ H2).
  rewrite attempt_events_record, (create_workout_attempts _ _ _ _ H1).
  rewrite attempt_events_record, (create_workout_attempts _ _ _ _ H0).
  rewrite <- !app_assoc. reflexivity.
Qed.

Lemma plan_loop_all_fail (plan : list WorkoutDay) :
  (forall w st0, exists e st1, create_workout self w st0 = (Raise e, st1)) ->
  forall (t : tally) (st : state world),
  exists (errs : list (exn * exn * exn)) (t' : tally) (st' : state world),
    plan_loop strptime_iso str_exn self plan t st = (t', st')
    /\ List.length errs = List.length plan
    /\ created_count t' = created_count t
    /\ failed t' = failed t ++ last_failures str_exn plan errs
    /\ attempt_events (trace st')
       = attempt_events (trace st) ++ three_failures plan errs.
Proof.
  intro Hfail. induction plan as [| w plan IH]; intros t st.
  - exists [], t, st. cbn [plan_loop List.length last_failures three_failures].
    rewrite !app_nil_r. repeat split.
  - cbn [plan_loop].
    change (get (name w) "Unknown") with (workout_name w).
    destruct (retry_loop_all_fail w t st (Hfail w))
      as [e0 [e1 [e2 [st1 [Hr Ha]]]]].
    rewrite Hr.
    destruct (IH {| created_count := created_count t;
                    failed := failed t ++ [(workout_name w, str_exn e2)] |}
                 st1)
      as [errs [t' [st' [Hp [Hl [Hc [Hf Ht]]]]]]].
    exists ((e0, e1, e2) :: errs), t', st'.
    split; [exact Hp |].
    split; [cbn [List.length]; rewrite Hl; reflexivity |].
    split; [exact Hc |].
    cbn [last_failures three_failures created_count failed] in *.
    split.
    + rewrite Hf, <- app_assoc. reflexivity.
    + rewrite Ht, Ha, <- app_assoc. reflexivity.
Qed.

Lemma last_failures_names (plan : list WorkoutDay) :
  forall errs : list (exn * exn * exn),
    List.length errs = List.length plan ->
    map fst (last_failures str_exn plan errs) = map workout_name plan.
Proof.
  induction plan as [| w plan IH]; intros errs Hl; [reflexivity |].
  destruct errs as [| [[e0 e1] e2] errs]; [discriminate Hl |].
  cbn [last_failures map fst]. f_equal. apply IH.
  cbn [List.length] in Hl. congruence.
Qed.

(** The relation [attempted] has one outcome and one final state. *)
Lemma attempted_functional (w : WorkoutDay) (k : Z) (st : state world)
      (o1 : outcome) (s1 : state world) :
  attempted strptime_iso str_exn self w k st o1 s1 ->
  forall (o2 : outcome) (s2 : state world),
    attempted strptime_iso str_exn self w k st o2 s2 ->
    o1 = o2 /\ s1 = s2.
Proof.
  induction 1 as [k st st1 u Hp | k st st1 st' e o Hk Hp _ IH | st st1 e Hp];
    intros o2 s2 H2; inversion H2; subst;
    try (exfalso; congruence); try (split; congruence).
  match goal with
  | Hq : try_publish _ _ _ _ = (Raise ?e', ?st0),
    Ha : attempted _ _ _ _ _ (record (EvAttempt _ _ (Some ?e')) ?st0) _ _
    |- _ =>
      assert (He : e' = e) by congruence;
      assert (Hst : st0 = st1) by congruence;
      subst; exact (IH _ _ Ha)
  end.
Qed.

(** The retry loop makes the attempts at a workout, from the first, and
    applies their outcome to the locals. *)
Lemma retry_loop_attempted (w : WorkoutDay) (t : tally) (st : state world) :
  exists (o : outcome) (st' : state world),
    retry_loop strptime_iso str_exn self w (workout_name w) [0; 1; 2] t st
    = (apply_outcome (workout_name w) o t, st')
    /\ attempted strptime_iso str_exn self w 0 st o st'.
Proof.
  cbn [retry_loop].
  destruct (try_publish strptime_iso self w st) as [[u | e0] st1] eqn:E0.
  { exists None. eexists. split; [reflexivity |].
    exact (attempted_published _ _ _ _ _ _ _ _ _ E0). }
  destruct (try_publish strptime_iso self w
              (record (EvAttempt (workout_name w) 0 (Some e0)) st1))
    as [[u | e1] st2] eqn:E1.
  { exists None. eexists. split; [reflexivity |].
    eapply attempted_again; [discriminate | exact E0 |].
    exact (attempted_published _ _ _ _ _ 1 _ _ _ E1). }
  destruct (try_publish strptime_iso self w
              (record (EvAttempt (workout_name w) 1 (Some e1)) st2))
    as [[u | e2] st3] eqn:E2.
  { exists None. eexists. split; [reflexivity |].
    eapply attempted_again; [discriminate | exact E0 |].
    eapply (attempted_again _ _ _ _ _ 1); [discriminate | exact E1 |].
    exact (attempted_published _ _ _ _ _ 2 _ _ _ E2). }
  exists (Some (str_exn e2)). eexists. split; [reflexivity |].
  eapply attempted_again; [discriminate | exact E0 |].
  eapply (attempted_again _ _ _ _ _ 1); [discriminate | exact E1 |].
  exact (attempted_given_up _ _ _ _ _ _ _ _ E2).
Qed.

(** The loop over the plan processes every workout and applies the
    outcomes to the locals. *)
Lemma plan_loop_processed (plan : list WorkoutDay) :
  forall (t : tally) (st : state world),
  exists (outcomes : list outcome) (t' : tally) (st' : state world),
    plan_loop strptime_iso str_exn self plan t st = (t', st')
    /\ processed strptime_iso str_exn self plan st outcomes st'
    /\ List.length outcomes = List.length plan
    /\ created_count t' = created_count t + successes outcomes
    /\ failed t' = failed t ++ failures_of plan outcomes.
Proof.
  induction plan as [| w plan IH]; intros t st.
  - exists [], t, st. cbn [plan_loop List.length failures_of].
    rewrite app_nil_r. unfold successes. cbn [filter List.length].
    split; [reflexivity |]. split; [constructor |].
    split; [reflexivity |]. split; [lia | reflexivity].
  - cbn [plan_loop].
    destruct (retry_loop_attempted w t st) as [o [st1 [Hr Ha]]].
    change (get (name w) "Unknown") with (workout_name w).
    rewrite Hr.
    destruct (IH (apply_outcome (workout_name w) o t) st1)
      as [outcomes [t' [st' [Hp [Hd [Hl [Hc Hf]]]]]]].
    exists (o :: outcomes), t', st'.
    split; [exact Hp |].
    split; [eapply processed_next; [exact Ha | exact Hd] |].
    split; [cbn [List.length]; rewrite Hl; reflexivity |].
    rewrite successes_cons, Hc, Hf.
    destruct o as [msg |]; cbn [apply_outcome created_count failed failures_of].
    + split; [lia |]. rewrite <- app_assoc. reflexivity.
    + split; [lia | reflexivity].
Qed.

(** C2, amended: for every plan, with an authenticated handle,
    [push_all_workouts] processes every workout, whatever the number of
    failures, and returns the count of created workouts alone. Every
    workout is attempted in the order of the plan, from the state its
    predecessors have left, until an attempt does not raise or the third
    has raised; the count returned is the number of workouts published;
    the failures, in the order of the plan, each with its workout name
    and the message of the exception of its third attempt, are in the
    local list [failed], which is not part of what is returned. *)
Theorem C2_push_returns_count (c : Client world)
        (plan : list WorkoutDay) (st : state world) :
  client self = Some c ->
  exists (outcomes : list outcome) (t : tally) (st' : state world),
    push_run strptime_iso str_exn self plan st = (t, st')
    /\ push_all_workouts strptime_iso str_exn self plan st
       = (Ok (created_count t), st')
    /\ processed strptime_iso str_exn self plan st outcomes st'
    /\ List.length outcomes = List.length plan
    /\ created_count t = successes outcomes
    /\ failed t = failures_of plan outcomes.
Proof.
  intro Hc.
  destruct (plan_loop_processed plan {| created_count := 0; failed := [] |} st)
    as [outcomes [t [st' [Hp [Hd [Hl [Hn Hf]]]]]]].
  exists outcomes, t, st'.
  split; [exact Hp |].
  split; [unfold push_all_workouts; rewrite Hc;
          fold (push_run strptime_iso str_exn self plan st);
          unfold push_run; rewrite Hp; reflexivity |].
  split; [exact Hd |].
  split; [exact Hl |].
  cbn [created_count failed] in Hn, Hf.
  split; [lia | exact Hf].
Qed.

(** C3, amended: when every call of [create_workout] raises, on a plan of
    N workouts [push_all_workouts] returns 0, which is all it returns;
    the list [failed] it has built has one entry per workout, in the
    order of the plan, with the message of the third attempt; every
    workout is attempted three times, one workout after the other. *)
Theorem C3_all_creates_fail (c : Client world)
        (plan : list WorkoutDay) (st : state world) :
  client self = Some c ->
  (forall w st0, exists e st1, create_workout self w st0 = (Raise e, st1)) ->
  exists (errs : list (exn * exn * exn)) (t : tally) (st' : state world),
    push_run strptime_iso str_exn self plan st = (t, st')
    /\ push_all_workouts strptime_iso str_exn self plan st = (Ok 0, st')
    /\ created_count t = 0
    /\ List.length errs = List.length plan
    /\ failed t = last_failures str_exn plan errs
    /\ List.length (failed t) = List.length plan
    /\ map fst (failed t) = map workout_name plan
    /\ attempt_events (trace st')
       = attempt_events (trace st) ++ three_failures plan errs.
Proof.
  intros Hc Hfail.
  destruct (plan_loop_all_fail plan Hfail
              {| created_count := 0; failed := [] |} st)
    as [errs [t [st' [Hp [Hl [Hn [Hf Ht]]]]]]].
  cbn [created_count failed app] in Hn, Hf.
  exists errs, t, st'.
  split; [exact Hp |].
  split; [unfold push_all_workouts, push_run; rewrite Hc, Hp, Hn;
          reflexivity |].
  split; [exact Hn |].
  split; [exact Hl |].
  split; [exact Hf |].
  assert (Hnames : map fst (failed t) = map workout_name plan)
    by (rewrite Hf; apply last_failures_names; exact Hl).
  split; [| split; [exact Hnames | exact Ht]].
  rewrite <- (length_map fst), Hnames. apply length_map.
Qed.

(** C10. When [create_workout] returns and the identifier is falsy or the
    workout has no date, the iteration sends no schedule request, the
    count is incremented, nothing is added to [failed], and the retry
    loop ends. *)
Theorem C10_success_without_schedule (w : WorkoutDay) (k : Z)
        (rest : list Z) (t : tally) (st st1 : state world)
        (wid : option Z) :
  create_workout self w st = (Ok wid, st1) ->
  truthy_id wid = false \/ truthy_str (date w) = false ->
  exists st' : state world,
    retry_loop strptime_iso str_exn self w (workout_name w) (k :: rest) t st
    = ({| created_count := created_count t + 1; failed := failed t |}, st')
    /\ exists evs, trace st' = trace st ++ evs
                   /\ In (EvAttempt (workout_name w) k None) evs
                   /\ forall wid' d, ~ In (EvSchedule wid' d) evs.
Proof.
  intros Hcreate Hfalsy. cbn [retry_loop].
  rewrite (try_publish_no_schedule w st st1 wid Hcreate Hfalsy).
  eexists. split; [reflexivity |].
  destruct (create_workout_trace _ _ _ _ Hcreate) as [evs [Ht Hev]].
  exists (evs ++ [EvAttempt (workout_name w) k None]).
  split; [unfold record; cbn [trace]; rewrite Ht, app_assoc; reflexivity |].
  split; [apply in_or_app; right; left; reflexivity |].
  intros wid' d Hin. apply in_app_or in Hin. destruct Hin as [Hin | Hin].
  - destruct (Hev _ Hin) as [req Hreq]. discriminate Hreq.
  - destruct Hin as [Hin | []]. discriminate Hin.
Qed.

End UploaderProperties.

(** C2, as stated, fails: on the same plan, with uploads that fail with
    two different messages, the value returned is 0 both times while the
    failures differ, so that the failures are not in what is returned. *)
Lemma C2_counterexample :
  fst (push_all_workouts iso_unchanged message_of
         (failing_client "timeout") plan_of_one start) = Ok 0
  /\ fst (push_all_workouts iso_unchanged message_of
            (failing_client "forbidden") plan_of_one start) = Ok 0
  /\ failed (fst (push_run iso_unchanged message_of
                    (failing_client "timeout") plan_of_one start))
     = [("Week 1 - Easy", "timeout")]
  /\ failed (fst (push_run iso_unchanged message_of
                    (failing_client "forbidden") plan_of_one start))
     = [("Week 1 - Easy", "forbidden")]
  /\ ~ (exists failures : result Z -> list (string * string),
          forall msg,
            failures (fst (push_all_workouts iso_unchanged message_of
                             (failing_client msg) plan_of_one start))
            = failed (fst (push_run iso_unchanged message_of
                             (failing_client msg) plan_of_one start))).
Proof.
  assert (R1 : fst (push_all_workouts iso_unchanged message_of
                      (failing_client "timeout") plan_of_one start) = Ok 0)
    by (vm_compute; reflexivity).
  assert (R2 : fst (push_all_workouts iso_unchanged message_of
                      (failing_client "forbidden") plan_of_one start) = Ok 0)
    by (vm_compute; reflexivity).
  assert (F1 : failed (fst (push_run iso_unchanged message_of
                              (failing_client "timeout") plan_of_one start))
               = [("Week 1 - Easy", "timeout")])
    by (vm_compute; reflexivity).
  assert (F2 : failed (fst (push_run iso_unchanged message_of
                              (failing_client "forbidden") plan_of_one start))
               = [("Week 1 - Easy", "forbidden")])
    by (vm_compute; reflexivity).
  split; [exact R1 |]. split; [exact R2 |].
  split; [exact F1 |]. split; [exact F2 |].
  intros [failures H].
  pose proof (H "timeout") as H1. pose proof (H "forbidden") as H2.
  rewrite R1, F1 in H1. rewrite R2, F2 in H2.
  rewrite H1 in H2. discriminate H2.
Qed.

Lemma C2_push_returns_count_witness :
  exists outcomes t st',
    push_run iso_unchanged message_of recovering_client
             plan_of_two flaky_start = (t, st')
    /\ push_all_workouts iso_unchanged message_of recovering_client
                         plan_of_two flaky_start = (Ok (created_count t), st')
    /\ processed iso_unchanged message_of recovering_client
                 plan_of_two flaky_start outcomes st'
    /\ List.length outcomes = List.length plan_of_two
    /\ created_count t = successes outcomes
    /\ failed t = failures_of plan_of_two outcomes.
Proof.
  eapply (C2_push_returns_count nat iso_unchanged message_of
            recovering_client).
  reflexivity.
Defined.

(** The run behind the witness: the first workout is given up with the
    message of its third upload, the second is published at its second
    attempt, and the value returned is 1. *)
Lemma recovering_run :
  fst (push_all_workouts iso_unchanged message_of recovering_client
         plan_of_two flaky_start) = Ok 1
  /\ failed (fst (push_run iso_unchanged message_of recovering_client
                    plan_of_two flaky_start))
     = [("Week 1 - Easy", "gave up")]
  /\ attempt_events
       (trace (snd (push_run iso_unchanged message_of recovering_client
                             plan_of_two flaky_start)))
     = [EvAttempt "Week 1 - Easy" 0 (Some (RemoteError "busy"));
        EvAttempt "Week 1 - Easy" 1 (Some (RemoteError "still busy"));
        EvAttempt "Week 1 - Easy" 2 (Some (RemoteError "gave up"));
        EvAttempt "Week 1 - Long" 0 (Some (RemoteError "down"));
        EvAttempt "Week 1 - Long" 1 None].
Proof. repeat split; vm_compute; reflexivity. Qed.

(** C3, as stated, fails: with uploads that always fail, a plan of one
    workout and a plan of two both make [push_all_workouts] return 0, so
    that no list of failures of the length of the plan is returned. *)
Lemma C3_counterexample :
  fst (push_all_workouts iso_unchanged message_of
         (failing_client "timeout") plan_of_one start) = Ok 0
  /\ fst (push_all_workouts iso_unchanged message_of
            (failing_client "timeout") plan_of_two start) = Ok 0
  /\ ~ (exists failures : result Z -> list (string * string),
          forall plan,
            In plan [plan_of_one; plan_of_two] ->
            List.length
              (failures (fst (push_all_workouts iso_unchanged message_of
                                (failing_client "timeout") plan start)))
            = List.length plan).
Proof.
  assert (R1 : fst (push_all_workouts iso_unchanged message_of
                      (failing_client "timeout") plan_of_one start) = Ok 0)
    by (vm_compute; reflexivity).
  assert (R2 : fst (push_all_workouts iso_unchanged message_of
                      (failing_client "timeout") plan_of_two start) = Ok 0)
    by (vm_compute; reflexivity).
  split; [exact R1 |]. split; [exact R2 |].
  intros [failures H].
  pose proof (H plan_of_one (or_introl eq_refl)) as H1.
  pose proof (H plan_of_two (or_intror (or_introl eq_refl))) as H2.
  rewrite R1 in H1. rewrite R2 in H2.
  change (List.length plan_of_one) with 1%nat in H1.
  change (List.length plan_of_two) with 2%nat in H2.
  rewrite H1 in H2. discriminate H2.
Qed.

Lemma flaky_create_raises (w : WorkoutDay) (st0 : state nat) :
  exists e st1, create_workout flaky_client w st0 = (Raise e, st1).
Proof.
  unfold create_workout, flaky_client, mbind, lift, call. cbn [client].
  destruct (_build_workout_steps _); eexists; eexists; reflexivity.
Qed.

Lemma C3_all_creates_fail_witness :
  exists errs t st',
    push_run iso_unchanged message_of flaky_client plan_of_two flaky_start
    = (t, st')
    /\ push_all_workouts iso_unchanged message_of flaky_client plan_of_two
                         flaky_start = (Ok 0, st')
    /\ created_count t = 0
    /\ List.length errs = List.length plan_of_two
    /\ failed t = last_failures message_of plan_of_two errs
    /\ List.length (failed t) = List.length plan_of_two
    /\ map fst (failed t) = map workout_name plan_of_two
    /\ attempt_events (trace st')
       = attempt_events (trace flaky_start)
         ++ three_failures plan_of_two errs.
Proof.
  eapply (C3_all_creates_fail nat iso_unchanged message_of flaky_client).
  - reflexivity.
  - exact flaky_create_raises.
Defined.

(** The run behind the witness: three uploads per workout, and the
    message of the third kept. *)
Lemma flaky_run :
  failed (fst (push_run iso_unchanged message_of flaky_client plan_of_two
                        flaky_start))
  = [("Week 1 - Easy", "gave up"); ("Week 1 - Long", "down")]
  /\ attempt_events
       (trace (snd (push_run iso_unchanged message_of flaky_client
                             plan_of_one flaky_start)))
     = [EvAttempt "Week 1 - Easy" 0 (Some (RemoteError "busy"));
        EvAttempt "Week 1 - Easy" 1 (Some (RemoteError "still busy"));
        EvAttempt "Week 1 - Easy" 2 (Some (RemoteError "gave up"))].
Proof. split; vm_compute; reflexivity. Qed.

Lemma C10_success_without_schedule_witness :
  exists st',
    retry_loop iso_unchanged message_of (accepting_client None)
               (easy_run "Week 1 - Easy" (Some "2025-03-01"))
               "Week 1 - Easy" [0; 1; 2]
               {| created_count := 0; failed := [] |} start
    = ({| created_count := 1; failed := [] |}, st')
    /\ exists evs, trace st' = trace start ++ evs
                   /\ In (EvAttempt "Week 1 - Easy" 0 None) evs
                   /\ forall wid' d, ~ In (EvSchedule wid' d) evs.
Proof.
  eapply (C10_success_without_schedule unit iso_unchanged message_of
            (accepting_client None)
            (easy_run "Week 1 - Easy" (Some "2025-03-01")) 0 [1; 2]
            {| created_count := 0; failed := [] |} start _ None).
  - vm_compute. reflexivity.
  - left. reflexivity.
Defined.

(** * Further properties of the parsers *)

(** ** Normalisation of the duration text *)

Lemma lower_char_space (c : ascii) : is_space (lower_char c) = is_space c.
Proof. destruct c as [[] [] [] [] [] [] [] []]; vm_compute; reflexivity. Qed.

Lemma lower_char_idem (c : ascii) : lower_char (lower_char c) = lower_char c.
Proof. destruct c as [[] [] [] [] [] [] [] []]; vm_compute; reflexivity. Qed.

Lemma lower_idem (s : string) : lower (lower s) = lower s.
Proof.
  induction s as [| c r IH]; [reflexivity |].
  cbn [lower]. rewrite lower_char_idem, IH. reflexivity.
Qed.

Lemma lstrip_lower (s : string) : lstrip (lower s) = lower (lstrip s).
Proof.
  induction s as [| c r IH]; [reflexivity |].
  cbn [lower lstrip]. rewrite lower_char_space.
  destruct (is_space c); [exact IH | reflexivity].
Qed.

Lemma rstrip_lower (s : string) : rstrip (lower s) = lower (rstrip s).
Proof.
  induction s as [| c r IH]; [reflexivity |].
  cbn [lower rstrip]. rewrite IH, lower_char_space.
  destruct (rstrip r); cbn [lower]; [| reflexivity].
  destruct (is_space c); reflexivity.
Qed.

Lemma strip_lower (s : string) : strip (lower s) = lower (strip s).
Proof. unfold strip. rewrite lstrip_lower. apply rstrip_lower. Qed.

Lemma rstrip_idem (s : string) : rstrip (rstrip s) = rstrip s.
Proof.
  induction s as [| c r IH]; [reflexivity |].
  cbn [rstrip]. destruct (rstrip r) as [| a r'] eqn:Hr.
  - destruct (is_space c) eqn:Hc; [reflexivity |].
    cbn [rstrip]. rewrite Hc. reflexivity.
  - cbn [rstrip]. cbn [rstrip] in IH. rewrite IH. reflexivity.
Qed.

(** What [lstrip] returns does not start with a blank. *)
Lemma lstrip_head (s : string) :
  match lstrip s with
  | EmptyString => True
  | String c _ => is_space c = false
  end.
Proof.
  induction s as [| c r IH]; [exact I |].
  cbn [lstrip]. destruct (is_space c) eqn:Hc; [exact IH | exact Hc].
Qed.

Lemma rstrip_keeps_head (c : ascii) (r : string) :
  is_space c = false -> exists r', rstrip (String c r) = String c r'.
Proof.
  intro Hc. cbn [rstrip]. destruct (rstrip r).
  - rewrite Hc. eexists. reflexivity.
  - eexists. reflexivity.
Qed.

Lemma strip_idem (s : string) : strip (strip s) = strip s.
Proof.
  unfold strip. pose proof (lstrip_head s) as Hh.
  destruct (lstrip s) as [| c r]; [reflexivity |].
  destruct (rstrip_keeps_head c r Hh) as [r' Hr]. rewrite Hr.
  cbn [lstrip]. rewrite Hh, <- Hr. apply rstrip_idem.
Qed.

Lemma normalise_idem (s : string) :
  lower (strip (lower (strip s))) = lower (strip s).
Proof. rewrite strip_lower, strip_idem. apply lower_idem. Qed.

(** X1. The result of [_parse_duration] depends on the text only up to
    case and to the blanks around it. *)
Theorem parse_duration_normalised (s : string) :
  _parse_duration (strip s) = _parse_duration s
  /\ _parse_duration (lower s) = _parse_duration s
  /\ _parse_duration (lower (strip s)) = _parse_duration s.
Proof.
  assert (H1 : lower (strip (strip s)) = lower (strip s))
    by (rewrite strip_idem; reflexivity).
  assert (H2 : lower (strip (lower s)) = lower (strip s))
    by (rewrite strip_lower; apply lower_idem).
  pose proof (normalise_idem s) as H3.
  unfold _parse_duration. rewrite H1, H2, H3. repeat split.
Qed.

(** ** A number followed by a unit *)

Local Open Scope string_scope.

Lemma lower_app (a b : string) : lower (a ++ b) = lower a ++ lower b.
Proof.
  induction a as [| c r IH]; [reflexivity |].
  cbn [append lower]. rewrite IH. reflexivity.
Qed.

Lemma space_char_plain (c : ascii) :
  is_space c = true -> lower_char c = c /\ is_num_char c = false.
Proof.
  destruct c as [[] [] [] [] [] [] [] []]; vm_compute; intro H;
    try discriminate H; split; reflexivity.
Qed.

Lemma blanks_lower (ws : string) :
  all_chars is_space ws = true -> lower ws = ws.
Proof.
  induction ws as [| c r IH]; [reflexivity |].
  cbn [all_chars lower]. intro H. apply andb_prop in H. destruct H as [Hc Hr].
  destruct (space_char_plain c Hc) as [Hl _]. rewrite Hl, (IH Hr). reflexivity.
Qed.

Lemma span_app (p : ascii -> bool) (a b : string) :
  all_chars p a = true -> head_outside p b -> span p (a ++ b) = (a, b).
Proof.
  intros Ha Hb. induction a as [| c r IH].
  - cbn [append]. destruct b as [| c r]; [reflexivity |].
    cbn [span]. cbn [head_outside] in Hb. rewrite Hb. reflexivity.
  - cbn [all_chars] in Ha. apply andb_prop in Ha. destruct Ha as [Hc Hr].
    cbn [append span]. rewrite Hc, (IH Hr). reflexivity.
Qed.

Lemma rstrip_app (a b : string) :
  b <> "" -> rstrip b = b -> rstrip (a ++ b) = a ++ b.
Proof.
  intros Hne Hb. induction a as [| c r IH]; [exact Hb |].
  cbn [append rstrip]. rewrite IH.
  destruct (r ++ b) eqn:E; [| reflexivity].
  destruct r; [cbn in E; contradiction | discriminate E].
Qed.

Lemma head_outside_app (p : ascii -> bool) (ws u : string) :
  u <> "" -> head_outside p u ->
  (forall c, is_space c = true -> p c = false) ->
  all_chars is_space ws = true ->
  head_outside p (ws ++ u).
Proof.
  intros Hne Hu Hp Hws. destruct ws as [| c r]; [exact Hu |].
  cbn [append head_outside]. cbn [all_chars] in Hws.
  apply andb_prop in Hws. apply Hp. apply Hws.
Qed.

Section NumberUnit.

Variables g ws u : string.
Hypothesis Hg : bare_number g = true.
Hypothesis Hne : g <> "".
Hypothesis Hws : all_chars is_space ws = true.
Hypothesis Hu : unit_token u.

Lemma number_unit_normal : lower (strip (g ++ ws ++ u)) = g ++ ws ++ u.
Proof.
  destruct Hu as [Hune [_ [_ [Hlow Hrs]]]].
  assert (Hstrip : strip (g ++ ws ++ u) = g ++ ws ++ u).
  { unfold strip.
    assert (Hl : lstrip (g ++ ws ++ u) = g ++ ws ++ u).
    { destruct g as [| c r]; [contradiction |].
      cbn [append lstrip]. unfold bare_number in Hg. cbn [all_chars] in Hg.
      apply andb_prop in Hg. destruct Hg as [Hc _].
      destruct (num_char_plain c Hc) as [Hs _]. rewrite Hs. reflexivity. }
    rewrite Hl. apply rstrip_app.
    - destruct ws; [exact Hune | discriminate].
    - apply rstrip_app; assumption. }
  rewrite Hstrip, !lower_app, (bare_lower g Hg), (blanks_lower ws Hws), Hlow.
  reflexivity.
Qed.

Lemma number_unit_match (units : list string) :
  match_number_unit units (g ++ ws ++ u)
  = match match_alt_end units u with
    | Some unit => Some (g, unit)
    | None => None
    end.
Proof.
  destruct Hu as [Hune [Hnum [Hsp _]]].
  unfold match_number_unit.
  rewrite (span_app is_num_char g (ws ++ u) Hg).
  - destruct g as [| c r]; [contradiction |].
    rewrite (span_app is_space ws u Hws Hsp). reflexivity.
  - apply head_outside_app; try assumption.
    intros c Hc. apply (space_char_plain c Hc).
Qed.

End NumberUnit.

Lemma str_in_dist_units (u : string) :
  str_in u dist_units = true ->
  u = "m" \/ u = "km" \/ u = "mi" \/ u = "mile" \/ u = "miles".
Proof.
  unfold str_in, dist_units. cbn [existsb]. intro H.
  repeat (apply orb_prop in H; destruct H as [H | H];
          [apply String.eqb_eq in H; tauto |]).
  discriminate H.
Qed.

Lemma str_in_time_units (u : string) :
  str_in u time_units = true ->
  u = "min" \/ u = "mins" \/ u = "minute" \/ u = "minutes" \/ u = "sec"
  \/ u = "secs" \/ u = "second" \/ u = "seconds" \/ u = "s".
Proof.
  unfold str_in, time_units. cbn [existsb]. intro H.
  repeat (apply orb_prop in H; destruct H as [H | H];
          [apply String.eqb_eq in H; tauto |]).
  discriminate H.
Qed.

Ltac unit_token_closed :=
  unfold unit_token; repeat split; try discriminate; reflexivity.

(** X2. A number, blanks or none, and a distance unit: the result is a
    distance in metres, the number itself for [m], times 1000 for [km]
    and times 1609.34 for [mi], [mile] and [miles]; it is the exception
    of [float] when the number has more than one point or no digit. *)
Theorem parse_duration_distance_units (g ws u : string) :
  bare_number g = true -> g <> "" ->
  all_chars is_space ws = true ->
  str_in u dist_units = true ->
  _parse_duration (g ++ ws ++ u)
  = (value <- float_of_str g ;;
     Ok (Distance (if String.eqb u "m" then value
                   else if String.eqb u "km" then (value * 1000)%float
                   else (value * lit_1609_34)%float))).
Proof.
  intros Hg Hne Hws Hu.
  assert (Htok : unit_token u)
    by (destruct (str_in_dist_units u Hu) as [-> | [-> | [-> | [-> | ->]]]];
        unit_token_closed).
  unfold _parse_duration.
  rewrite (number_unit_normal g ws u Hg Hne Hws Htok).
  rewrite (number_unit_match g ws u Hg Hne Hws Htok).
  destruct (str_in_dist_units u Hu) as [-> | [-> | [-> | [-> | ->]]]];
    reflexivity.
Qed.

Lemma parse_duration_distance_units_witness :
  _parse_duration "2.5 KM" = _parse_duration "2.5 km"
  /\ _parse_duration ("2.5" ++ " " ++ "km") = Ok (Distance 2500).
Proof.
  split; [vm_compute; reflexivity |].
  rewrite (parse_duration_distance_units "2.5" " " "km");
    try reflexivity; try discriminate.
Defined.

(** X3. A number, blanks or none, and a time unit: the result is a time
    in seconds, the number truncated toward zero for the units of the
    second and the number times 60, then truncated, for the units of the
    minute; no distance is ever produced for these units. *)
Theorem parse_duration_time_units (g ws u : string) :
  bare_number g = true -> g <> "" ->
  all_chars is_space ws = true ->
  str_in u time_units = true ->
  _parse_duration (g ++ ws ++ u)
  = (value <- float_of_str g ;;
     n <- int_of_float
            (if str_in u ["sec"; "secs"; "second"; "seconds"; "s"]
             then value else (value * 60)%float) ;;
     Ok (Time n)).
Proof.
  intros Hg Hne Hws Hu.
  assert (Htok : unit_token u)
    by (destruct (str_in_time_units u Hu)
         as [-> | [-> | [-> | [-> | [-> | [-> | [-> | [-> | ->]]]]]]]];
        unit_token_closed).
  unfold _parse_duration.
  rewrite (number_unit_normal g ws u Hg Hne Hws Htok).
  rewrite !(number_unit_match g ws u Hg Hne Hws Htok).
  destruct (str_in_time_units u Hu)
    as [-> | [-> | [-> | [-> | [-> | [-> | [-> | [-> | ->]]]]]]]];
    reflexivity.
Qed.

Lemma parse_duration_time_units_witness :
  _parse_duration ("1.5" ++ "" ++ "min") = Ok (Time 90).
Proof.
  rewrite (parse_duration_time_units "1.5" "" "min");
    try reflexivity; try discriminate.
Defined.

(** ** Clock times *)

Lemma all_chars_app (p : ascii -> bool) (a b : string) :
  all_chars p (a ++ b) = all_chars p a && all_chars p b.
Proof.
  induction a as [| c r IH]; [reflexivity |].
  cbn [append all_chars]. rewrite IH. apply andb_assoc.
Qed.

Lemma all_chars_impl (p q : ascii -> bool) (s : string) :
  (forall c, p c = true -> q c = true) ->
  all_chars p s = true -> all_chars q s = true.
Proof.
  intro Hpq. induction s as [| c r IH]; [reflexivity |].
  cbn [all_chars]. intro H. apply andb_prop in H. destruct H as [Hc Hr].
  rewrite (Hpq c Hc), (IH Hr). reflexivity.
Qed.

Lemma digit_char_plain (c : ascii) :
  is_digit c = true ->
  is_num_char c = true /\ plain_char c = true
  /\ other_than ":" c = true /\ other_than "_" c = true
  /\ forall r, take_sign (String c r) = (false, String c r).
Proof.
  destruct c as [[] [] [] [] [] [] [] []]; vm_compute; intro H;
    try discriminate H; repeat split.
Qed.

Lemma plain_normal (s : string) :
  all_chars plain_char s = true -> lower (strip s) = s.
Proof.
  intro H.
  assert (Hlow : lower s = s).
  { induction s as [| c r IH]; [reflexivity |].
    cbn [all_chars] in H. apply andb_prop in H. destruct H as [Hc Hr].
    unfold plain_char in Hc. apply andb_prop in Hc. destruct Hc as [_ Hc].
    apply Ascii.eqb_eq in Hc. cbn [lower]. rewrite Hc, (IH Hr). reflexivity. }
  assert (Hl : lstrip s = s).
  { destruct s as [| c r]; [reflexivity |].
    cbn [all_chars] in H. apply andb_prop in H. destruct H as [Hc _].
    unfold plain_char in Hc. apply andb_prop in Hc. destruct Hc as [Hc _].
    apply negb_true_iff in Hc. cbn [lstrip]. rewrite Hc. reflexivity. }
  assert (Hr : rstrip s = s).
  { clear Hlow Hl. induction s as [| c r IH]; [reflexivity |].
    cbn [all_chars] in H. apply andb_prop in H. destruct H as [Hc Hr].
    unfold plain_char in Hc. apply andb_prop in Hc. destruct Hc as [Hc _].
    apply negb_true_iff in Hc. cbn [rstrip]. rewrite (IH Hr), Hc.
    destruct r; reflexivity. }
  unfold strip. rewrite Hl, Hr. exact Hlow.
Qed.

Lemma strip_underscores_digits (d : string) :
  all_chars is_digit d = true ->
  forall prev, d <> "" \/ prev <> "_"%char ->
               strip_underscores prev d = Some d.
Proof.
  induction d as [| c r IH]; intros Hd prev Hp.
  - destruct Hp as [Hp | Hp]; [contradiction |].
    cbn [strip_underscores]. apply Ascii.eqb_neq in Hp. rewrite Hp. reflexivity.
  - cbn [all_chars] in Hd. apply andb_prop in Hd. destruct Hd as [Hc Hr].
    destruct (digit_char_plain c Hc) as [_ [_ [_ [Hu _]]]].
    unfold other_than in Hu. apply negb_true_iff in Hu.
    cbn [strip_underscores]. rewrite Hu, Hc. cbn [negb].
    rewrite andb_false_r. rewrite (IH Hr c).
    + reflexivity.
    + right. apply Ascii.eqb_neq. exact Hu.
Qed.

Lemma digit_not_num_space (c : ascii) :
  is_digit c = true -> is_num_space c = false.
Proof.
  destruct c as [[] [] [] [] [] [] [] []]; vm_compute; intro H;
    try discriminate H; reflexivity.
Qed.

(** [int] and [float] find no blank to skip around digits. *)
Lemma digits_num_strip (d : string) :
  all_chars is_digit d = true -> num_strip d = d.
Proof.
  intro Hd. unfold num_strip.
  assert (Hl : num_lstrip d = d).
  { destruct d as [| c r]; [reflexivity |].
    cbn [all_chars] in Hd. apply andb_prop in Hd. destruct Hd as [Hc _].
    cbn [num_lstrip]. rewrite (digit_not_num_space c Hc). reflexivity. }
  rewrite Hl. induction d as [| c r IH]; [reflexivity |].
  cbn [all_chars] in Hd. apply andb_prop in Hd. destruct Hd as [Hc Hr].
  assert (Hlr : num_lstrip r = r).
  { destruct r as [| c' r']; [reflexivity |].
    cbn [all_chars] in Hr. apply andb_prop in Hr. destruct Hr as [Hc' _].
    cbn [num_lstrip]. rewrite (digit_not_num_space c' Hc'). reflexivity. }
  cbn [num_rstrip]. rewrite (IH Hr Hlr), (digit_not_num_space c Hc).
  destruct r; reflexivity.
Qed.

(** [int] of a string of digits is its value when the digits are not
    more than the limit, and raises [ValueError] when they are. *)
Lemma int_of_str_digits_limit (d : string) :
  all_chars is_digit d = true -> d <> "" ->
  int_of_str d
  = if (Z.of_nat (String.length d) <=? max_str_digits)%Z
    then Ok (digits_value 0 d) else Raise ValueError.
Proof.
  intros Hd Hne. unfold int_of_str.
  rewrite (digits_num_strip d Hd).
  rewrite (strip_underscores_digits d Hd); [| left; exact Hne].
  destruct d as [| c r]; [contradiction |].
  pose proof Hd as Hd'. cbn [all_chars] in Hd'.
  apply andb_prop in Hd'. destruct Hd' as [Hc _].
  destruct (digit_char_plain c Hc) as [_ [_ [_ [_ Hs]]]].
  rewrite Hs. cbv iota. rewrite Hd. reflexivity.
Qed.

Lemma int_of_str_digits (d : string) :
  all_chars is_digit d = true -> d <> "" ->
  (Z.of_nat (String.length d) <= max_str_digits)%Z ->
  int_of_str d = Ok (digits_value 0 d).
Proof.
  intros Hd Hne Hlen. rewrite (int_of_str_digits_limit d Hd Hne).
  apply Z.leb_le in Hlen. rewrite Hlen. reflexivity.
Qed.

Lemma int_of_str_empty : int_of_str "" = Raise ValueError.
Proof. reflexivity. Qed.

Lemma contains_app (sub a b : string) :
  prefix sub b = true -> contains sub (a ++ b) = true.
Proof.
  intro H. induction a as [| c r IH].
  - cbn [append]. destruct b; cbn [contains]; rewrite H; reflexivity.
  - cbn [append contains]. rewrite IH. apply orb_true_r.
Qed.

Lemma split_no_sep (sep : ascii) (a : string) :
  all_chars (other_than sep) a = true -> split sep a = [a].
Proof.
  induction a as [| c r IH]; [reflexivity |].
  cbn [all_chars]. intro H. apply andb_prop in H. destruct H as [Hc Hr].
  unfold other_than in Hc. apply negb_true_iff in Hc.
  cbn [split]. rewrite Hc, (IH Hr). reflexivity.
Qed.

Lemma split_app_sep (sep : ascii) (a r : string) :
  all_chars (other_than sep) a = true ->
  split sep (a ++ String sep r) = a :: split sep r.
Proof.
  induction a as [| c a' IH].
  - intros _. cbn [append split]. rewrite Ascii.eqb_refl. reflexivity.
  - cbn [all_chars]. intro H. apply andb_prop in H. destruct H as [Hc Hr].
    unfold other_than in Hc. apply negb_true_iff in Hc.
    cbn [append split]. rewrite Hc, (IH Hr). reflexivity.
Qed.

Lemma digits_no_colon (d : string) :
  all_chars is_digit d = true -> all_chars (other_than ":") d = true.
Proof.
  apply all_chars_impl. intros c Hc. apply (digit_char_plain c Hc).
Qed.

Lemma digits_plain (d : string) :
  all_chars is_digit d = true -> all_chars plain_char d = true.
Proof.
  apply all_chars_impl. intros c Hc. apply (digit_char_plain c Hc).
Qed.

(** Digits and then a colon are no number with a unit. *)
Lemma digits_colon_no_unit (units : list string) (m rest : string) :
  all_chars is_digit m = true ->
  match_alt_end units (String ":" rest) = None ->
  match_number_unit units (m ++ String ":" rest) = None.
Proof.
  intros Hm Hu. unfold match_number_unit.
  rewrite (span_app is_num_char m (String ":" rest)).
  - destruct m; [reflexivity |]. cbn [span].
    change (is_space ":") with false. cbn iota. rewrite Hu. reflexivity.
  - apply (all_chars_impl is_digit); [| exact Hm].
    intros c Hc. apply (digit_char_plain c Hc).
  - reflexivity.
Qed.

Lemma colon_no_dist_unit (rest : string) :
  match_alt_end dist_units (String ":" rest) = None.
Proof. reflexivity. Qed.

Lemma colon_no_time_unit (rest : string) :
  match_alt_end time_units (String ":" rest) = None.
Proof. reflexivity. Qed.

Lemma prefix_colon (rest : string) : prefix ":" (String ":" rest) = true.
Proof.
  cbn [prefix]. destruct (ascii_dec ":" ":") as [_ | H];
    [destruct rest; reflexivity | exfalso; apply H; reflexivity].
Qed.

(** The common part of the clock texts: the text is its own normal form,
    no unit pattern matches it and it contains a colon. *)
Lemma parse_duration_colon (m rest : string) :
  all_chars is_digit m = true ->
  all_chars plain_char rest = true ->
  _parse_duration (m ++ String ":" rest)
  = (let parts := split ":" (m ++ String ":" rest) in
     ms <- (if Nat.eqb (List.length parts) 2
            then mi <- int_of_str (nth 0 parts "") ;;
                 se <- int_of_str (nth 1 parts "") ;;
                 Ok (mi, se)
            else mi <- int_of_str (nth 0 parts "") ;;
                 Ok (mi, 0%Z)) ;;
     let '(minutes, seconds) := ms in
     Ok (Time (minutes * 60 + seconds))).
Proof.
  intros Hm Hrest. unfold _parse_duration.
  rewrite plain_normal.
  - rewrite (digits_colon_no_unit dist_units m rest Hm (colon_no_dist_unit _)).
    rewrite (digits_colon_no_unit time_units m rest Hm (colon_no_time_unit _)).
    rewrite (contains_app ":" m (String ":" rest) (prefix_colon rest)).
    reflexivity.
  - rewrite all_chars_app, (digits_plain m Hm). cbn [all_chars andb].
    exact Hrest.
Qed.

(** X4. Minutes, a colon and seconds, each of digits within the limit
    of [int]: the result is the time of 60 times the minutes plus the
    seconds, with no bound on the value of the seconds; a field of more
    digits than the limit makes the parser raise [ValueError]. *)
Theorem parse_duration_clock (m s : string) :
  all_chars is_digit m = true -> m <> "" ->
  all_chars is_digit s = true -> s <> "" ->
  _parse_duration (m ++ ":" ++ s)
  = if (Z.of_nat (String.length m) <=? max_str_digits)%Z
       && (Z.of_nat (String.length s) <=? max_str_digits)%Z
    then Ok (Time (digits_value 0 m * 60 + digits_value 0 s))
    else Raise ValueError.
Proof.
  intros Hm Hmne Hs Hsne.
  change (":" ++ s) with (String ":" s).
  rewrite (parse_duration_colon m s Hm (digits_plain s Hs)).
  rewrite (split_app_sep ":" m s (digits_no_colon m Hm)).
  rewrite (split_no_sep ":" s (digits_no_colon s Hs)).
  cbn [List.length Nat.eqb nth].
  rewrite (int_of_str_digits_limit m Hm Hmne),
    (int_of_str_digits_limit s Hs Hsne).
  destruct (Z.of_nat (String.length m) <=? max_str_digits)%Z;
    destruct (Z.of_nat (String.length s) <=? max_str_digits)%Z; reflexivity.
Qed.

Lemma parse_duration_clock_witness :
  _parse_duration ("1" ++ ":" ++ "90") = Ok (Time 150).
Proof.
  rewrite (parse_duration_clock "1" "90");
    try reflexivity; discriminate.
Defined.

(** X5. Three fields of digits separated by colons: only the first is
    read, as minutes; the two others are ignored, so that ["1:30:00"]
    is 60 seconds. The first field raises [ValueError] when it has more
    digits than the limit of [int]. *)
Theorem parse_duration_three_fields (a b c : string) :
  all_chars is_digit a = true -> a <> "" ->
  all_chars is_digit b = true ->
  all_chars is_digit c = true ->
  _parse_duration (a ++ ":" ++ b ++ ":" ++ c)
  = if (Z.of_nat (String.length a) <=? max_str_digits)%Z
    then Ok (Time (digits_value 0 a * 60))
    else Raise ValueError.
Proof.
  intros Ha Hane Hb Hc.
  change (":" ++ b ++ ":" ++ c) with (String ":" (b ++ String ":" c)).
  rewrite (parse_duration_colon a (b ++ String ":" c) Ha).
  - rewrite (split_app_sep ":" a _ (digits_no_colon a Ha)).
    rewrite (split_app_sep ":" b c (digits_no_colon b Hb)).
    rewrite (split_no_sep ":" c (digits_no_colon c Hc)).
    cbn [List.length Nat.eqb nth].
    rewrite (int_of_str_digits_limit a Ha Hane).
    destruct (Z.of_nat (String.length a) <=? max_str_digits)%Z;
      [| reflexivity].
    cbn [bind]. rewrite Z.add_0_r. reflexivity.
  - rewrite all_chars_app, (digits_plain b Hb). cbn [all_chars andb].
    rewrite (digits_plain c Hc). reflexivity.
Qed.

Lemma parse_duration_three_fields_witness :
  _parse_duration ("1" ++ ":" ++ "30" ++ ":" ++ "00") = Ok (Time 60).
Proof.
  rewrite (parse_duration_three_fields "1" "30" "00");
    try reflexivity; discriminate.
Defined.

(** X6. A colon with no digit before it or after it: [int] of the empty
    string raises [ValueError], which is not caught. *)
Theorem parse_duration_empty_field (m s : string) :
  all_chars is_digit m = true ->
  all_chars is_digit s = true ->
  m = "" \/ s = "" ->
  _parse_duration (m ++ ":" ++ s) = Raise ValueError.
Proof.
  intros Hm Hs He.
  change (":" ++ s) with (String ":" s).
  rewrite (parse_duration_colon m s Hm (digits_plain s Hs)).
  rewrite (split_app_sep ":" m s (digits_no_colon m Hm)).
  rewrite (split_no_sep ":" s (digits_no_colon s Hs)).
  cbn [List.length Nat.eqb nth].
  destruct m as [| c r].
  - reflexivity.
  - destruct He as [He | He]; [discriminate He |]. subst s.
    rewrite (int_of_str_digits_limit _ Hm); [| discriminate].
    destruct (Z.of_nat (String.length (String c r)) <=? max_str_digits)%Z;
      reflexivity.
Qed.

Lemma parse_duration_empty_field_witness :
  _parse_duration ("5" ++ ":" ++ "") = Raise ValueError.
Proof.
  apply (parse_duration_empty_field "5" "");
    [reflexivity | reflexivity | right; reflexivity].
Defined.

(** ** Targets *)

Lemma digit_char_range (c : ascii) :
  is_digit c = true -> 0 <= code c - 48 <= 9.
Proof.
  unfold is_digit. intro H. apply andb_prop in H. destruct H as [H1 H2].
  apply Z.leb_le in H1. apply Z.leb_le in H2. lia.
Qed.

(** X7. A target that is not a pace never raises: the result is no
    target, or a heart-rate zone between 0 and 9. *)
Theorem parse_target_not_pace (target : string) :
  match_pace (strip target) = None ->
  _parse_target target = Ok NoTarget
  \/ exists d, 0 <= d <= 9 /\ _parse_target target = Ok (HeartRateZone d).
Proof.
  intro Hpace. unfold _parse_target.
  destruct (String.eqb target "" || str_in (lower target) ["open"; "jog"; "easy"]);
    [left; reflexivity |].
  rewrite Hpace.
  destruct (contains "zone" (lower target)); [| left; reflexivity].
  destruct (search_digit target) as [c |] eqn:Hd; [| left; reflexivity].
  pose proof (search_digit_is_digit _ _ Hd) as Hc.
  right. exists (code c - 48).
  split; [apply digit_char_range; exact Hc |].
  rewrite (digit_char_value c Hc). reflexivity.
Qed.

Lemma parse_target_not_pace_witness :
  _parse_target "tempo effort" = Ok NoTarget
  \/ exists d, 0 <= d <= 9
               /\ _parse_target "tempo effort" = Ok (HeartRateZone d).
Proof. apply (parse_target_not_pace "tempo effort"). reflexivity. Defined.

Lemma plain_strip (s : string) :
  all_chars plain_char s = true -> strip s = s.
Proof.
  intro H.
  assert (Hl : lstrip s = s).
  { destruct s as [| c r]; [reflexivity |].
    cbn [all_chars] in H. apply andb_prop in H. destruct H as [Hc _].
    unfold plain_char in Hc. apply andb_prop in Hc. destruct Hc as [Hc _].
    apply negb_true_iff in Hc. cbn [lstrip]. rewrite Hc. reflexivity. }
  unfold strip. rewrite Hl.
  induction s as [| c r IH]; [reflexivity |].
  cbn [all_chars] in H. apply andb_prop in H. destruct H as [Hc Hr].
  unfold plain_char in Hc. apply andb_prop in Hc. destruct Hc as [Hc _].
  apply negb_true_iff in Hc. cbn [rstrip]. rewrite IH, Hc.
  - destruct r; reflexivity.
  - exact Hr.
  - destruct r as [| c' r']; [reflexivity |].
    cbn [all_chars] in Hr. apply andb_prop in Hr. destruct Hr as [Hc' _].
    unfold plain_char in Hc'. apply andb_prop in Hc'. destruct Hc' as [Hc' _].
    apply negb_true_iff in Hc'. cbn [lstrip]. rewrite Hc'. reflexivity.
Qed.

Lemma digit_not_keyword (c : ascii) (r : string) :
  is_digit c = true ->
  String.eqb (String c r) "" = false
  /\ str_in (lower (String c r)) ["open"; "jog"; "easy"] = false.
Proof.
  destruct c as [[] [] [] [] [] [] [] []]; vm_compute; intro H;
    try discriminate H; split; reflexivity.
Qed.

Lemma str_in_pace_suffixes (x : string) :
  str_in x pace_suffixes = true ->
  x = "" \/ x = "/mi" \/ x = "mi" \/ x = "/km" \/ x = "km".
Proof.
  unfold str_in, pace_suffixes. cbn [existsb]. intro H.
  repeat (apply orb_prop in H; destruct H as [H | H];
          [apply String.eqb_eq in H; tauto |]).
  discriminate H.
Qed.

(** The pace pattern on minutes, a colon, seconds and a suffix. *)
Lemma match_pace_text (m s x : string) :
  all_chars is_digit m = true -> m <> "" ->
  all_chars is_digit s = true -> s <> "" ->
  str_in x pace_suffixes = true ->
  match_pace (m ++ ":" ++ s ++ x)
  = Some (m, s,
          if String.eqb x "" then None
          else if str_in x ["/mi"; "mi"] then Some "mi" else Some "km").
Proof.
  intros Hm Hmne Hs Hsne Hx. unfold match_pace.
  change (":" ++ s ++ x) with (String ":" (s ++ x)).
  rewrite (span_app is_digit m (String ":" (s ++ x)) Hm eq_refl).
  destruct m as [| cm rm]; [contradiction |].
  assert (Hhead : head_outside is_digit x)
    by (destruct (str_in_pace_suffixes x Hx) as [-> | [-> | [-> | [-> | ->]]]];
        reflexivity).
  rewrite (span_app is_digit s x Hs Hhead).
  destruct s as [| cs rs]; [contradiction |].
  destruct (str_in_pace_suffixes x Hx) as [-> | [-> | [-> | [-> | ->]]]];
    reflexivity.
Qed.

(** The pace branch of [_parse_target] on a well-formed pace. *)
Lemma parse_target_pace_eq (m s x : string) :
  all_chars is_digit m = true -> m <> "" ->
  all_chars is_digit s = true -> s <> "" ->
  str_in x pace_suffixes = true ->
  _parse_target (m ++ ":" ++ s ++ x)
  = if (Z.of_nat (String.length m) <=? max_str_digits)%Z
       && (Z.of_nat (String.length s) <=? max_str_digits)%Z
    then
      (let minutes := digits_value 0 m in
       let total_seconds := minutes * 60 + digits_value 0 s in
       speed <- (if str_in x ["/km"; "km"]
                    || (String.eqb x "" && (minutes <? 10)%Z)
                 then int_truediv 1000 total_seconds
                 else float_truediv_int lit_1609_34 total_seconds) ;;
       Ok (PaceRange (speed * lit_1_05) (speed * lit_0_95)))
    else Raise ValueError.
Proof.
  intros Hm Hmne Hs Hsne Hx.
  assert (Hplain : all_chars plain_char (m ++ ":" ++ s ++ x) = true).
  { rewrite all_chars_app, (digits_plain m Hm).
    change (":" ++ s ++ x) with (String ":" (s ++ x)).
    cbn [all_chars]. rewrite all_chars_app, (digits_plain s Hs).
    destruct (str_in_pace_suffixes x Hx) as [-> | [-> | [-> | [-> | ->]]]];
      reflexivity. }
  unfold _parse_target.
  rewrite (plain_strip _ Hplain).
  rewrite (match_pace_text m s x Hm Hmne Hs Hsne Hx).
  assert (Hkw : String.eqb (m ++ ":" ++ s ++ x) ""
                || str_in (lower (m ++ ":" ++ s ++ x)) ["open"; "jog"; "easy"]
                = false).
  { destruct m as [| cm rm]; [contradiction |].
    cbn [all_chars] in Hm. apply andb_prop in Hm. destruct Hm as [Hcm _].
    change (String cm rm ++ ":" ++ s ++ x)
      with (String cm (rm ++ ":" ++ s ++ x)).
    destruct (digit_not_keyword cm (rm ++ ":" ++ s ++ x) Hcm) as [H1 H2].
    rewrite H1, H2. reflexivity. }
  rewrite Hkw.
  rewrite (int_of_str_digits_limit m Hm Hmne),
    (int_of_str_digits_limit s Hs Hsne).
  destruct (Z.of_nat (String.length m) <=? max_str_digits)%Z;
    destruct (Z.of_nat (String.length s) <=? max_str_digits)%Z;
    cbn [bind andb]; try reflexivity.
  destruct (str_in_pace_suffixes x Hx) as [-> | [-> | [-> | [-> | ->]]]];
    reflexivity.
Qed.

(** X8. Minutes, a colon, seconds and nothing, [/mi], [mi], [/km] or [km],
    the minutes and the seconds within the limit of digits of [int]: the
    speed is 1000 metres over the seconds of the pace for a pace per
    kilometre, and for a pace without unit whose minutes are below 10;
    it is 1609.34 metres over the seconds otherwise; the bounds are the
    speed times 1.05 and times 0.95; a division that raises makes the
    parser raise. Minutes or seconds of more digits than the limit make
    it raise [ValueError]. *)
Theorem parse_target_pace (m s x : string) :
  all_chars is_digit m = true -> m <> "" ->
  all_chars is_digit s = true -> s <> "" ->
  str_in x pace_suffixes = true ->
  _parse_target (m ++ ":" ++ s ++ x)
  = if (Z.of_nat (String.length m) <=? max_str_digits)%Z
       && (Z.of_nat (String.length s) <=? max_str_digits)%Z
    then
      (let minutes := digits_value 0 m in
       let total_seconds := minutes * 60 + digits_value 0 s in
       speed <- (if str_in x ["/km"; "km"]
                    || (String.eqb x "" && (minutes <? 10)%Z)
                 then int_truediv 1000 total_seconds
                 else float_truediv_int lit_1609_34 total_seconds) ;;
       Ok (PaceRange (speed * lit_1_05) (speed * lit_0_95)))
    else Raise ValueError.
Proof. exact (parse_target_pace_eq m s x). Qed.

Lemma parse_target_pace_witness :
  _parse_target ("4" ++ ":" ++ "10" ++ "/km")
  = (speed <- int_truediv 1000 250 ;;
     Ok (PaceRange (speed * lit_1_05) (speed * lit_0_95))).
Proof.
  rewrite (parse_target_pace "4" "10" "/km");
    try reflexivity; discriminate.
Defined.

(** X9. A pace of zero seconds, its zeros within the limit of digits of
    [int], raises [ZeroDivisionError], with or without a unit. *)
Theorem parse_target_zero_pace (m s x : string) :
  all_chars is_digit m = true -> m <> "" ->
  all_chars is_digit s = true -> s <> "" ->
  (Z.of_nat (String.length m) <= max_str_digits)%Z ->
  (Z.of_nat (String.length s) <= max_str_digits)%Z ->
  str_in x pace_suffixes = true ->
  digits_value 0 m = 0 -> digits_value 0 s = 0 ->
  _parse_target (m ++ ":" ++ s ++ x) = Raise ZeroDivisionError.
Proof.
  intros Hm Hmne Hs Hsne Lm Ls Hx Zm Zs.
  rewrite (parse_target_pace_eq m s x Hm Hmne Hs Hsne Hx).
  apply Z.leb_le in Lm. apply Z.leb_le in Ls. rewrite Lm, Ls. cbn [andb].
  rewrite Zm, Zs. cbn [Z.mul Z.add].
  destruct (str_in x ["/km"; "km"] || (String.eqb x "" && (0 <? 10)%Z));
    vm_compute; reflexivity.
Qed.

Lemma parse_target_zero_pace_witness :
  _parse_target ("0" ++ ":" ++ "00" ++ "") = Raise ZeroDivisionError.
Proof.
  apply (parse_target_zero_pace "0" "00" "");
    try reflexivity; try discriminate; vm_compute; discriminate.
Defined.

(** * Further properties of the encoder *)

Lemma build_steps_from_encodes (steps : list RawStep) :
  Forall step_parses steps ->
  forall i : Z,
  exists out,
    build_steps_from i steps = Ok out
    /\ List.length out = List.length steps
    /\ forall (k : nat) (step : RawStep),
        nth_error steps k = Some step ->
        exists g,
          nth_error out k = Some g
          /\ stepOrder g = (i + Z.of_nat k + 1)%Z
          /\ stepType g = _get_step_type (get (intensity step) "active")
          /\ _parse_duration (get (duration step) "10:00")
             = Ok (endCondition g, endConditionValue g)
          /\ _parse_target (get (target step) "Open")
             = Ok (targetType g,
                   {| low := targetValueOne g; high := targetValueTwo g |}).
Proof.
  induction 1 as [| step rest [[d Hd] [t Ht]] _ IH]; intro i.
  - exists []. split; [reflexivity |]. split; [reflexivity |].
    intros k step Hk. destruct k; discriminate Hk.
  - destruct (IH (i + 1)%Z) as [gs [Hgs [Hlen Hnth]]].
    cbn [build_steps_from]. unfold build_step. rewrite Hd, Ht.
    cbn [bind]. destruct d as [dt dv]. destruct t as [tt tv].
    cbn [bind]. rewrite Hgs. cbn [bind].
    eexists. split; [reflexivity |].
    split; [cbn [List.length]; rewrite Hlen; reflexivity |].
    intros k step' Hk. destruct k as [| k].
    + cbn [nth_error] in Hk. inversion Hk; subst step'.
      eexists. split; [reflexivity |].
      cbn [stepOrder stepType endCondition endConditionValue targetType
           targetValueOne targetValueTwo].
      split; [lia |]. split; [reflexivity |].
      split; [exact Hd |]. rewrite Ht. destruct tv. reflexivity.
    + cbn [nth_error] in Hk. destruct (Hnth k step' Hk) as [g [Hg [Ho Hr]]].
      exists g. split; [exact Hg |]. split; [lia | exact Hr].
Qed.

(** X10. When the duration and the target of every step are parsed,
    [_build_workout_steps] returns one step per input step, in order:
    its order is the position plus one, its type is that of the
    intensity, [active] when absent, and its end condition and target
    are what the two parsers return on the texts of the step, ["10:00"]
    and ["Open"] when absent. *)
Theorem build_workout_steps_encodes (steps : list RawStep) :
  Forall step_parses steps ->
  exists out,
    _build_workout_steps steps = Ok out
    /\ List.length out = List.length steps
    /\ forall (k : nat) (step : RawStep),
        nth_error steps k = Some step ->
        exists g,
          nth_error out k = Some g
          /\ stepOrder g = (Z.of_nat k + 1)%Z
          /\ stepType g = _get_step_type (get (intensity step) "active")
          /\ _parse_duration (get (duration step) "10:00")
             = Ok (endCondition g, endConditionValue g)
          /\ _parse_target (get (target step) "Open")
             = Ok (targetType g,
                   {| low := targetValueOne g; high := targetValueTwo g |}).
Proof.
  intro H. exact (build_steps_from_encodes steps H 0%Z).
Qed.

Lemma tempo_step_parses : step_parses (tempo_step "20:00").
Proof. split; eexists; vm_compute; reflexivity. Qed.

Lemma build_workout_steps_encodes_witness :
  exists out,
    _build_workout_steps [tempo_step "20:00"; tempo_step "20:00"] = Ok out
    /\ List.length out = 2%nat
    /\ forall (k : nat) (step : RawStep),
        nth_error [tempo_step "20:00"; tempo_step "20:00"] k = Some step ->
        exists g,
          nth_error out k = Some g
          /\ stepOrder g = (Z.of_nat k + 1)%Z
          /\ stepType g = _get_step_type (get (intensity step) "active")
          /\ _parse_duration (get (duration step) "10:00")
             = Ok (endCondition g, endConditionValue g)
          /\ _parse_target (get (target step) "Open")
             = Ok (targetType g,
                   {| low := targetValueOne g; high := targetValueTwo g |}).
Proof.
  apply (build_workout_steps_encodes
           [tempo_step "20:00"; tempo_step "20:00"]).
  repeat constructor; apply tempo_step_parses.
Defined.

Lemma build_steps_from_first_failure (good : list RawStep) (bad : RawStep)
      (rest : list RawStep) (e : exn) :
  Forall step_parses good ->
  forall i : Z,
    build_step (i + Z.of_nat (List.length good)) bad = Raise e ->
    build_steps_from i (good ++ bad :: rest)%list = Raise e.
Proof.
  induction 1 as [| step good' [[d Hd] [t Ht]] _ IH]; intros i Hbad.
  - cbn [app build_steps_from]. cbn [List.length] in Hbad.
    replace (i + Z.of_nat 0)%Z with i in Hbad by lia.
    rewrite Hbad. reflexivity.
  - cbn [app build_steps_from]. unfold build_step at 1. rewrite Hd, Ht.
    cbn [bind]. destruct d, t. cbn [bind].
    rewrite (IH (i + 1)%Z); [reflexivity |].
    cbn [List.length] in Hbad.
    replace (i + 1 + Z.of_nat (List.length good'))%Z
      with (i + Z.of_nat (S (List.length good')))%Z by lia.
    exact Hbad.
Qed.

(** X11. The first step whose duration or target makes a parser raise
    makes [_build_workout_steps] raise the same exception, whatever the
    steps after it; no step is returned. *)
Theorem build_workout_steps_first_failure (good : list RawStep)
        (bad : RawStep) (rest : list RawStep) (e : exn) :
  Forall step_parses good ->
  (_parse_duration (get (duration bad) "10:00") = Raise e
   \/ (exists d, _parse_duration (get (duration bad) "10:00") = Ok d)
      /\ _parse_target (get (target bad) "Open") = Raise e) ->
  _build_workout_steps (good ++ bad :: rest)%list = Raise e.
Proof.
  intros Hgood Hbad. unfold _build_workout_steps.
  apply build_steps_from_first_failure; [exact Hgood |].
  unfold build_step. destruct Hbad as [Hd | [[d Hd] Ht]].
  - rewrite Hd. reflexivity.
  - rewrite Hd, Ht. reflexivity.
Qed.

Lemma build_workout_steps_first_failure_witness :
  _build_workout_steps
    ([tempo_step "20:00"] ++ tempo_step "5:" :: [tempo_step "20:00"])%list
  = Raise ValueError.
Proof.
  apply (build_workout_steps_first_failure
           [tempo_step "20:00"] (tempo_step "5:") [tempo_step "20:00"]).
  - repeat constructor; apply tempo_step_parses.
  - left. vm_compute. reflexivity.
Defined.

(** * Further properties of the uploader *)

Local Open Scope list_scope.

Section UploaderRuns.

Variable world : Type.
Variable strptime_iso : string -> result string.
Variable str_exn : exn -> string.
Variable self : GarminClient world.

Lemma schedule_workout_attempts (wid : Z) (d : string) (st st1 : state world)
      (r : result unit) :
  schedule_workout strptime_iso self wid d st = (r, st1) ->
  attempt_events (trace st1) = attempt_events (trace st)
  /\ upload_events (trace st1) = upload_events (trace st).
Proof.
  unfold schedule_workout. destruct (client self) as [c |].
  - unfold mbind, lift, call. destruct (strptime_iso d) as [iso | e].
    + destruct (connectapi_schedule c wid iso (remote st)) as [r' w'].
      intro H. inversion H; subst. cbn [trace].
      unfold attempt_events, upload_events. rewrite !filter_app.
      cbn [filter is_attempt is_upload]. rewrite !app_nil_r. split; reflexivity.
    + intro H. inversion H; subst. split; reflexivity.
  - unfold raise. intro H. inversion H; subst. split; reflexivity.
Qed.

(** An attempt adds no end of iteration to the trace by itself. *)
Lemma try_publish_attempts (w : WorkoutDay) (st st1 : state world)
      (r : result unit) :
  try_publish strptime_iso self w st = (r, st1) ->
  attempt_events (trace st1) = attempt_events (trace st).
Proof.
  unfold try_publish, mbind.
  destruct (create_workout self w st) as [[wid | e] st0] eqn:Hc.
  - pose proof (create_workout_attempts world self w st st0 _ Hc) as Ha.
    destruct wid as [z |]; [| intro H; inversion H; subst; exact Ha].
    destruct (date w) as [d |]; [| intro H; inversion H; subst; exact Ha].
    destruct (truthy_id (Some z) && truthy_str (Some d)).
    + intro H. apply schedule_workout_attempts in H. destruct H as [H _].
      rewrite H. exact Ha.
    + intro H. inversion H; subst. exact Ha.
  - intro H. inversion H; subst.
    exact (create_workout_attempts world self w st st1 _ Hc).
Qed.

(** The retry loop makes one, two or three attempts. *)
Lemma retry_loop_attempt_count (w : WorkoutDay) (t : tally)
      (st : state world) :
  exists k : nat,
    (1 <= k <= 3)%nat
    /\ List.length
         (attempt_events
            (trace (snd (retry_loop strptime_iso str_exn self w
                                    (workout_name w) [0; 1; 2] t st))))
       = (List.length (attempt_events (trace st)) + k)%nat.
Proof.
  cbn [retry_loop].
  destruct (try_publish strptime_iso self w st) as [[u | e0] st1] eqn:H0;
    pose proof (try_publish_attempts _ _ _ _ H0) as A0.
  { exists 1%nat. split; [lia |]. cbn [snd].
    rewrite attempt_events_record, A0, length_app. reflexivity. }
  destruct (try_publish strptime_iso self w (record _ st1))
    as [[u | e1] st2] eqn:H1;
    pose proof (try_publish_attempts _ _ _ _ H1) as A1;
    rewrite attempt_events_record, A0 in A1.
  { exists 2%nat. split; [lia |]. cbn [snd].
    rewrite attempt_events_record, A1, !length_app. cbn [List.length]. lia. }
  destruct (try_publish strptime_iso self w (record _ st2))
    as [[u | e2] st3] eqn:H2;
    pose proof (try_publish_attempts _ _ _ _ H2) as A2;
    rewrite attempt_events_record, A1 in A2.
  { exists 3%nat. split; [lia |]. cbn [snd].
    rewrite attempt_events_record, A2, !length_app. cbn [List.length]. lia. }
  exists 3%nat. split; [lia |]. cbn [snd].
  rewrite attempt_events_record, A2, !length_app. cbn [List.length]. lia.
Qed.

Lemma plan_loop_attempt_count (plan : list WorkoutDay) :
  forall (t : tally) (st : state world),
  exists k : nat,
    (List.length plan <= k <= 3 * List.length plan)%nat
    /\ List.length
         (attempt_events
            (trace (snd (plan_loop strptime_iso str_exn self plan t st))))
       = (List.length (attempt_events (trace st)) + k)%nat.
Proof.
  induction plan as [| w plan IH]; intros t st.
  - exists 0%nat. cbn [plan_loop snd List.length]. split; lia.
  - cbn [plan_loop].
    change (get (name w) "Unknown") with (workout_name w).
    destruct (retry_loop_attempt_count w t st) as [k1 [Hk1 H1]].
    destruct (retry_loop strptime_iso str_exn self w (workout_name w)
                         [0; 1; 2] t st) as [t1 st1].
    cbn [snd] in H1.
    destruct (IH t1 st1) as [k2 [Hk2 H2]].
    exists (k1 + k2)%nat. cbn [List.length]. split; [lia |].
    rewrite H2, H1. lia.
Qed.

(** X12. Bounded retries: a run over a plan of N workouts makes at least
    N and at most 3 N attempts, whatever the platform answers. *)
Theorem push_run_attempt_bounds (plan : list WorkoutDay) (st : state world) :
  exists k : nat,
    (List.length plan <= k <= 3 * List.length plan)%nat
    /\ List.length
         (attempt_events
            (trace (snd (push_run strptime_iso str_exn self plan st))))
       = (List.length (attempt_events (trace st)) + k)%nat.
Proof. apply plan_loop_attempt_count. Qed.

Lemma outcomes_account (plan : list WorkoutDay) :
  forall outcomes : list outcome,
    List.length outcomes = List.length plan ->
    (successes outcomes
     + Z.of_nat (List.length (failures_of plan outcomes))
     = Z.of_nat (List.length plan))%Z.
Proof.
  induction plan as [| w plan IH]; intros outcomes Hl.
  - destruct outcomes; [reflexivity | discriminate Hl].
  - destruct outcomes as [| o outcomes]; [discriminate Hl |].
    cbn [List.length] in Hl. injection Hl as Hl.
    rewrite successes_cons. specialize (IH outcomes Hl).
    destruct o; cbn [failures_of List.length]; lia.
Qed.

(** X13. Every workout of the plan is counted once: when the run ends,
    the count of created workouts plus the number of recorded failures
    is the number of workouts of the plan. *)
Theorem push_run_accounts (plan : list WorkoutDay) (st : state world) :
  let t := fst (push_run strptime_iso str_exn self plan st) in
  (created_count t + Z.of_nat (List.length (failed t))
   = Z.of_nat (List.length plan))%Z
  /\ (0 <= created_count t)%Z.
Proof.
  destruct (plan_loop_outcomes world strptime_iso str_exn self plan
              {| created_count := 0; failed := [] |} st)
    as [outcomes [t [st' [Hp [Hl [Hc Hf]]]]]].
  unfold push_run. rewrite Hp. cbn [fst].
  cbn [created_count failed app] in Hc, Hf. rewrite Hc, Hf.
  split; [apply outcomes_account; exact Hl |].
  unfold successes. lia.
Qed.

(** X14. A workout one of whose steps cannot be encoded is never sent:
    each of the three attempts raises the exception of the parser before
    any request, the platform is left as it was, and the workout is
    recorded as failed with that exception. *)
Theorem retry_loop_encode_failure (c : Client world) (w : WorkoutDay)
        (t : tally) (st : state world) (e : exn) :
  client self = Some c ->
  _build_workout_steps (get (steps w) []) = Raise e ->
  retry_loop strptime_iso str_exn self w (workout_name w) [0; 1; 2] t st
  = ({| created_count := created_count t;
        failed := failed t ++ [(workout_name w, str_exn e)] |},
     {| remote := remote st;
        trace := trace st
                 ++ [EvAttempt (workout_name w) 0 (Some e);
                     EvAttempt (workout_name w) 1 (Some e);
                     EvAttempt (workout_name w) 2 (Some e)] |}).
Proof.
  intros Hc He.
  assert (Hcreate : forall st0, create_workout self w st0 = (Raise e, st0)).
  { intro st0. unfold create_workout, mbind, lift. rewrite Hc, He.
    reflexivity. }
  cbn [retry_loop].
  rewrite (try_publish_create_fails world strptime_iso self _ _ _ _
             (Hcreate st)).
  rewrite (try_publish_create_fails world strptime_iso self _ _ _ _
             (Hcreate _)).
  rewrite (try_publish_create_fails world strptime_iso self _ _ _ _
             (Hcreate _)).
  unfold record. cbn [remote trace Z.eqb]. rewrite <- !app_assoc.
  reflexivity.
Qed.

(** One attempt on a dated workout when the upload is accepted and the
    schedule request is refused: the attempt raises after the upload. *)
Lemma try_publish_schedule_refused (c : Client world) (w : WorkoutDay)
      (d iso : string) (gs : list garmin_step) (st : state world) :
  client self = Some c ->
  (forall req w0, exists wid w1,
        upload_workout c req w0 = (Ok (Some wid), w1) /\ wid <> 0%Z) ->
  (forall wid i w0, exists e w1,
        connectapi_schedule c wid i w0 = (Raise e, w1)) ->
  date w = Some d -> d <> EmptyString ->
  strptime_iso d = Ok iso ->
  _build_workout_steps (get (steps w) []) = Ok gs ->
  exists e st1,
    try_publish strptime_iso self w st = (Raise e, st1)
    /\ List.length (upload_events (trace st1))
       = S (List.length (upload_events (trace st))).
Proof.
  intros Hc Hup Hsched Hd Hdne Hiso Hgs.
  unfold try_publish, create_workout, schedule_workout, mbind, lift, call.
  rewrite Hc, Hgs.
  destruct (Hup {| workoutName := get (name w) "Training Run";
                   workoutDescription := get (description w) EmptyString;
                   segmentOrder := 1;
                   workoutSteps := gs |} (remote st))
    as [wid [w1 [Hu Hwid]]].
  rewrite Hu, Hd. cbn [remote trace].
  assert (Ht : truthy_id (Some wid) && truthy_str (Some d) = true).
  { cbn [truthy_id]. apply Z.eqb_neq in Hwid. rewrite Hwid.
    destruct d; [contradiction | reflexivity]. }
  rewrite Ht, Hiso. cbn [remote trace].
  destruct (Hsched wid iso w1) as [e [w2 Hs]]. rewrite Hs.
  exists e. eexists. split; [reflexivity |].
  cbn [trace]. unfold upload_events. rewrite !filter_app.
  cbn [filter is_upload]. rewrite !length_app. cbn [List.length]. lia.
Qed.

Lemma upload_events_record (st : state world) (wname : string) (k : Z)
      (caught : option exn) :
  upload_events (trace (record (EvAttempt wname k caught) st))
  = upload_events (trace st).
Proof.
  unfold record, upload_events. cbn [trace]. rewrite filter_app.
  cbn [filter is_upload]. apply app_nil_r.
Qed.

(** X15. When the platform accepts every upload and refuses every
    schedule request, a dated workout is uploaded three times, once per
    attempt, and is recorded as failed; the count is not incremented. *)
Theorem retry_loop_schedule_refused (c : Client world) (w : WorkoutDay)
        (d iso : string) (gs : list garmin_step) (t : tally)
        (st : state world) :
  client self = Some c ->
  (forall req w0, exists wid w1,
        upload_workout c req w0 = (Ok (Some wid), w1) /\ wid <> 0%Z) ->
  (forall wid i w0, exists e w1,
        connectapi_schedule c wid i w0 = (Raise e, w1)) ->
  date w = Some d -> d <> EmptyString ->
  strptime_iso d = Ok iso ->
  _build_workout_steps (get (steps w) []) = Ok gs ->
  exists e st',
    retry_loop strptime_iso str_exn self w (workout_name w) [0; 1; 2] t st
    = ({| created_count := created_count t;
          failed := failed t ++ [(workout_name w, str_exn e)] |}, st')
    /\ List.length (upload_events (trace st'))
       = (List.length (upload_events (trace st)) + 3)%nat.
Proof.
  intros Hc Hup Hsched Hd Hdne Hiso Hgs.
  cbn [retry_loop].
  destruct (try_publish_schedule_refused c w d iso gs st
              Hc Hup Hsched Hd Hdne Hiso Hgs) as [e0 [st1 [H0 U0]]].
  rewrite H0.
  destruct (try_publish_schedule_refused c w d iso gs
              (record (EvAttempt (workout_name w) 0 (Some e0)) st1)
              Hc Hup Hsched Hd Hdne Hiso Hgs) as [e1 [st2 [H1 U1]]].
  rewrite H1.
  destruct (try_publish_schedule_refused c w d iso gs
              (record (EvAttempt (workout_name w) 1 (Some e1)) st2)
              Hc Hup Hsched Hd Hdne Hiso Hgs) as [e2 [st3 [H2 U2]]].
  rewrite H2.
  exists e2. eexists. split; [reflexivity |].
  rewrite upload_events_record in *. lia.
Qed.

(** One attempt when nothing fails. *)
Lemma try_publish_succeeds (c : Client world) (w : WorkoutDay)
      (st : state world) :
  client self = Some c ->
  (forall req w0, exists wid w1, upload_workout c req w0 = (Ok wid, w1)) ->
  (forall wid i w0, exists w1,
        connectapi_schedule c wid i w0 = (Ok tt, w1)) ->
  (exists gs, _build_workout_steps (get (steps w) []) = Ok gs) ->
  (forall d, date w = Some d -> exists iso, strptime_iso d = Ok iso) ->
  exists st1, try_publish strptime_iso self w st = (Ok tt, st1).
Proof.
  intros Hc Hup Hsched [gs Hgs] Hdate.
  unfold try_publish, create_workout, schedule_workout, mbind, lift, call.
  rewrite Hc, Hgs.
  destruct (Hup {| workoutName := get (name w) "Training Run";
                   workoutDescription := get (description w) EmptyString;
                   segmentOrder := 1;
                   workoutSteps := gs |} (remote st)) as [wid [w1 Hu]].
  rewrite Hu. cbn [remote trace].
  destruct wid as [z |]; [| eexists; reflexivity].
  destruct (date w) as [d |] eqn:Hd; [| eexists; reflexivity].
  destruct (truthy_id (Some z) && truthy_str (Some d));
    [| eexists; reflexivity].
  destruct (Hdate d eq_refl) as [iso Hiso]. rewrite Hiso. cbn [remote trace].
  destruct (Hsched z iso w1) as [w2 Hs]. rewrite Hs.
  eexists. reflexivity.
Qed.

Lemma plan_loop_all_succeed (plan : list WorkoutDay) :
  (forall w st0, In w plan ->
                 exists st1, try_publish strptime_iso self w st0 = (Ok tt, st1)) ->
  forall (t : tally) (st : state world),
  exists st',
    plan_loop strptime_iso str_exn self plan t st
    = ({| created_count := created_count t + Z.of_nat (List.length plan);
          failed := failed t |}, st')
    /\ attempt_events (trace st')
       = attempt_events (trace st)
         ++ map (fun w => EvAttempt (workout_name w) 0 None) plan.
Proof.
  induction plan as [| w plan IH]; intros Hok t st.
  - exists st. cbn [plan_loop List.length map Z.of_nat].
    rewrite Z.add_0_r, app_nil_r. destruct t. split; reflexivity.
  - cbn [plan_loop retry_loop].
    destruct (Hok w st (or_introl eq_refl)) as [st1 H1]. rewrite H1.
    destruct (IH (fun w' st0 Hin => Hok w' st0 (or_intror Hin))
                 {| created_count := created_count t + 1;
                    failed := failed t |}
                 (record (EvAttempt (get (name w) "Unknown") 0 None) st1))
      as [st' [Hp Ha]].
    exists st'. rewrite Hp. cbn [created_count failed].
    split.
    + f_equal. f_equal. cbn [List.length]. lia.
    + rewrite Ha, attempt_events_record.
      rewrite (try_publish_attempts _ _ _ _ H1).
      rewrite <- app_assoc. reflexivity.
Qed.

(** X16. When every workout of the plan can be encoded, every date is
    read, and the platform accepts every upload and every schedule
    request, [push_all_workouts] returns the number of workouts of the
    plan, nothing is recorded as failed, and each workout is attempted
    once, in the order of the plan. *)
Theorem push_all_succeed (c : Client world) (plan : list WorkoutDay)
        (st : state world) :
  client self = Some c ->
  (forall req w0, exists wid w1, upload_workout c req w0 = (Ok wid, w1)) ->
  (forall wid i w0, exists w1,
        connectapi_schedule c wid i w0 = (Ok tt, w1)) ->
  (forall w, In w plan ->
             exists gs, _build_workout_steps (get (steps w) []) = Ok gs) ->
  (forall w d, In w plan -> date w = Some d ->
               exists iso, strptime_iso d = Ok iso) ->
  exists st',
    push_all_workouts strptime_iso str_exn self plan st
    = (Ok (Z.of_nat (List.length plan)), st')
    /\ failed (fst (push_run strptime_iso str_exn self plan st)) = []
    /\ attempt_events (trace st')
       = attempt_events (trace st)
         ++ map (fun w => EvAttempt (workout_name w) 0 None) plan.
Proof.
  intros Hc Hup Hsched Hsteps Hdates.
  destruct (plan_loop_all_succeed plan
              (fun w st0 Hin =>
                 try_publish_succeeds c w st0 Hc Hup Hsched (Hsteps w Hin)
                                      (fun d => Hdates w d Hin))
              {| created_count := 0; failed := [] |} st) as [st' [Hp Ha]].
  exists st'. unfold push_all_workouts, push_run. rewrite Hc, Hp.
  cbn [created_count failed fst]. repeat split. exact Ha.
Qed.

End UploaderRuns.

Lemma retry_loop_encode_failure_witness :
  retry_loop iso_unchanged message_of (accepting_client (Some 7%Z))
             broken_run "Week 1 - Tempo" [0; 1; 2]%Z
             {| created_count := 0; failed := [] |} start
  = ({| created_count := 0;
        failed := [("Week 1 - Tempo", "ValueError")] |},
     {| remote := tt;
        trace := [EvAttempt "Week 1 - Tempo" 0 (Some ValueError);
                  EvAttempt "Week 1 - Tempo" 1 (Some ValueError);
                  EvAttempt "Week 1 - Tempo" 2 (Some ValueError)] |}).
Proof.
  eapply (retry_loop_encode_failure unit iso_unchanged message_of
            (accepting_client (Some 7%Z)) _ broken_run
            {| created_count := 0; failed := [] |} start ValueError).
  - reflexivity.
  - vm_compute. reflexivity.
Defined.

Lemma retry_loop_schedule_refused_witness :
  exists e st',
    retry_loop iso_unchanged message_of refusing_client
               (easy_run "Week 1 - Easy" (Some "2025-03-01"))
               "Week 1 - Easy" [0; 1; 2]%Z
               {| created_count := 0; failed := [] |} start
    = ({| created_count := 0;
          failed := [] ++ [("Week 1 - Easy", message_of e)] |}, st')
    /\ List.length (upload_events (trace st'))
       = (List.length (upload_events (trace start)) + 3)%nat.
Proof.
  eapply (retry_loop_schedule_refused unit iso_unchanged message_of
            refusing_client _
            (easy_run "Week 1 - Easy" (Some "2025-03-01"))
            "2025-03-01" "2025-03-01" _
            {| created_count := 0; failed := [] |} start).
  - reflexivity.
  - intros req w0. exists 7%Z, w0. split; [reflexivity | discriminate].
  - intros wid i w0. eexists. eexists. reflexivity.
  - reflexivity.
  - discriminate.
  - reflexivity.
  - vm_compute. reflexivity.
Defined.

Lemma push_all_succeed_witness :
  exists st',
    push_all_workouts iso_unchanged message_of (accepting_client (Some 7%Z))
                      plan_of_two start
    = (Ok (Z.of_nat (List.length plan_of_two)), st')
    /\ failed (fst (push_run iso_unchanged message_of
                        (accepting_client (Some 7%Z)) plan_of_two start))
       = []
    /\ attempt_events (trace st')
       = attempt_events (trace start)
         ++ map (fun w => EvAttempt (workout_name w) 0 None) plan_of_two.
Proof.
  eapply (push_all_succeed unit iso_unchanged message_of
            (accepting_client (Some 7%Z)) _ plan_of_two start).
  - reflexivity.
  - intros req w0. eexists. eexists. reflexivity.
  - intros wid i w0. eexists. reflexivity.
  - intros w [<- | [<- | []]]; eexists; vm_compute; reflexivity.
  - intros w d _ _. eexists. reflexivity.
Defined.

(** * The activities kept for the summary *)

Local Open Scope string_scope.

Lemma prefix_app_l (a b : string) :
  forall s, prefix (a ++ b) s = true -> prefix a s = true.
Proof.
  induction a as [| c a' IH]; intros s H.
  - destruct s; reflexivity.
  - destruct s as [| d s']; [discriminate H |].
    cbn [append prefix] in *.
    destruct (ascii_dec c d); [apply IH; exact H | discriminate H].
Qed.

Lemma prefix_running_run (s : string) :
  prefix "running" s = true -> prefix "run" s = true.
Proof. exact (prefix_app_l "run" "ning" s). Qed.

Lemma contains_running_run (s : string) :
  contains "running" s = true -> contains "run" s = true.
Proof.
  induction s as [| c r IH].
  - cbn. discriminate.
  - cbn [contains]. intro H. apply orb_prop in H. destruct H as [H | H].
    + rewrite (prefix_running_run _ H). reflexivity.
    + rewrite (IH H). apply orb_true_r.
Qed.

(** X17. An activity is kept exactly when its type, in lower case,
    contains [run]; an absent type is not kept. The test on [running]
    adds nothing to it. *)
Theorem is_running_contains_run (activity : RawActivity) :
  is_running activity
  = match typeKey activity with
    | Some type => contains "run" (lower type)
    | None => false
    end.
Proof.
  unfold is_running. destruct (typeKey activity) as [type |];
    [| reflexivity].
  cbn [get].
  destruct (contains "running" (lower type)) eqn:H; [| reflexivity].
  rewrite (contains_running_run _ H). reflexivity.
Qed.

Lemma running_record_converts (activity : RawActivity) :
  distance_converts activity ->
  exists r, running_record activity = Ok r /\ recorded_as activity r.
Proof.
  intro Hconv. unfold running_record, recorded_as.
  destruct (PrimFloat.ltb zero (get (raw_distance activity) zero)) eqn:Hd.
  - unfold float_truediv. rewrite (Hconv Hd). cbn [bind].
    eexists. split; [reflexivity |]. repeat split.
  - cbn [bind]. eexists. split; [reflexivity |]. repeat split.
Qed.

(** X18. When no positive distance vanishes in the conversion to
    kilometres, the loop of [get_activities] returns one record for each
    activity it keeps, in the order of the platform: distance over 1000,
    duration over 60, heart rate and calories as they are, and a pace
    exactly when the distance is above zero. *)
Theorem running_activities_records (activities : list RawActivity) :
  Forall distance_converts activities ->
  exists records,
    running_activities activities = Ok records
    /\ Forall2 recorded_as (filter is_running activities) records.
Proof.
  induction 1 as [| a rest Ha _ [records [Hr Hf]]].
  - exists []. split; [reflexivity | constructor].
  - cbn [running_activities filter]. destruct (is_running a).
    + destruct (running_record_converts a Ha) as [r [Hrec Hras]].
      rewrite Hrec, Hr. cbn [bind]. exists (r :: records).
      split; [reflexivity |]. constructor; assumption.
    + exists records. split; assumption.
Qed.

Lemma running_activities_records_witness :
  exists records,
    running_activities [trail_run (Some 5000%float); bike_ride;
                        trail_run None] = Ok records
    /\ Forall2 recorded_as
         (filter is_running [trail_run (Some 5000%float); bike_ride;
                             trail_run None])
         records.
Proof.
  apply (running_activities_records
           [trail_run (Some 5000%float); bike_ride; trail_run None]).
  repeat constructor; intro H; vm_compute; vm_compute in H;
    try reflexivity; discriminate H.
Defined.

Lemma truthy_values_none (field : Activity -> option float)
      (records : list Activity) :
  Forall (fun r => field r = None) records ->
  truthy_values field records = [].
Proof.
  induction 1 as [| r rest Hr _ IH]; [reflexivity |].
  cbn [truthy_values]. rewrite Hr. exact IH.
Qed.

(** X19. From the platform to the summary: when no running activity has
    a distance above zero, whatever the other activities are, the loop of
    [get_activities] returns, and the summary of what it returns has no
    mean pace. *)
Theorem summary_without_distance (py_sum : list float -> float)
        (activities : list RawActivity) :
  Forall (fun a => is_running a = true ->
                   PrimFloat.ltb zero (get (raw_distance a) zero) = false)
         activities ->
  exists records m,
    running_activities activities = Ok records
    /\ analyze_fitness py_sum records = Ok m
    /\ m_avg_pace_min_km m = None
    /\ (records <> [] -> has_data m = true
                         /\ total_runs m
                            = Some (Z.of_nat (List.length records))).
Proof.
  intro Hzero.
  assert (Hrec : exists records,
             running_activities activities = Ok records
             /\ Forall (fun r => avg_pace_min_km r = None) records).
  { induction Hzero as [| a rest Ha _ [records [Hr Hf]]].
    - exists []. split; [reflexivity | constructor].
    - cbn [running_activities]. destruct (is_running a).
      + unfold running_record. rewrite (Ha eq_refl). cbn [bind]. rewrite Hr.
        cbn [bind]. eexists. split; [reflexivity |].
        constructor; [reflexivity | exact Hf].
      + exists records. split; assumption. }
  destruct Hrec as [records [Hr Hf]].
  exists records. destruct records as [| r rest].
  - eexists. split; [exact Hr |]. split; [reflexivity |].
    split; [reflexivity |]. intro H. contradiction.
  - eexists. split; [exact Hr |].
    split; [apply analyze_fitness_nonempty |].
    cbn [m_avg_pace_min_km has_data total_runs].
    rewrite (truthy_values_none avg_pace_min_km _ Hf).
    split; [reflexivity |]. intros _. split; reflexivity.
Qed.

Lemma summary_without_distance_witness :
  exists records m,
    running_activities [trail_run None; bike_ride; trail_run (Some 0%float)]
    = Ok records
    /\ analyze_fitness sum_left records = Ok m
    /\ m_avg_pace_min_km m = None
    /\ (records <> [] -> has_data m = true
                         /\ total_runs m
                            = Some (Z.of_nat (List.length records))).
Proof.
  apply (summary_without_distance sum_left
           [trail_run None; bike_ride; trail_run (Some 0%float)]).
  repeat constructor; intro H; vm_compute; vm_compute in H;
    try reflexivity; discriminate H.
Defined.

(** * The text handed to the JSON parser *)

Lemma split_on_nonempty (sep : string) :
  forall (s : string) (k : nat), split_on sep k s <> [].
Proof.
  induction s as [| c r IH]; intro k; cbn [split_on]; [discriminate |].
  destruct k; [| apply IH].
  destruct (prefix sep (String c r)); [discriminate |].
  destruct (split_on sep 0 r); discriminate.
Qed.

Lemma first_part_cons (sep : string) (c : ascii) (r : string) :
  first_part sep (String c r)
  = if prefix sep (String c r) then "" else String c (first_part sep r).
Proof.
  unfold first_part. cbn [split_on].
  destruct (prefix sep (String c r)); [reflexivity |].
  pose proof (split_on_nonempty sep r 0) as H.
  destruct (split_on sep 0 r); [contradiction | reflexivity].
Qed.

Lemma prefix_empty (s : string) : prefix "" s = true.
Proof. destruct s; reflexivity. Qed.

Lemma prefix_cons (c : ascii) (a b : string) :
  prefix (String c a) (String c b) = prefix a b.
Proof.
  cbn [prefix]. destruct (ascii_dec c c) as [_ | H];
    [reflexivity | exfalso; apply H; reflexivity].
Qed.

Lemma prefix_app_self (a b : string) : prefix a (a ++ b) = true.
Proof.
  induction a as [| c a IH]; [apply prefix_empty |].
  cbn [append]. rewrite prefix_cons. exact IH.
Qed.

Lemma prefix_trans :
  forall a b c : string,
    prefix a b = true -> prefix b c = true -> prefix a c = true.
Proof.
  induction a as [| x a IH]; intros b c Hab Hbc; [apply prefix_empty |].
  destruct b as [| y b]; [discriminate Hab |].
  destruct c as [| z c]; [discriminate Hbc |].
  cbn [prefix] in *.
  destruct (ascii_dec x y) as [-> |]; [| discriminate Hab].
  destruct (ascii_dec y z) as [-> |]; [| discriminate Hbc].
  exact (IH b c Hab Hbc).
Qed.

Lemma prefix_of_empty (sep : string) : sep <> "" -> prefix sep "" = false.
Proof. destruct sep; [contradiction | reflexivity]. Qed.

Lemma first_part_prefix (sep : string) :
  forall s, prefix (first_part sep s) s = true.
Proof.
  induction s as [| c r IH]; [reflexivity |].
  rewrite first_part_cons. destruct (prefix sep (String c r));
    [reflexivity |].
  rewrite prefix_cons. exact IH.
Qed.

(** The first part of a split does not contain the separator. *)
Lemma first_part_no_sep (sep : string) :
  sep <> "" -> forall s, contains sep (first_part sep s) = false.
Proof.
  intro Hne. induction s as [| c r IH].
  - unfold first_part. cbn [split_on hd contains].
    rewrite (prefix_of_empty sep Hne). reflexivity.
  - rewrite first_part_cons. destruct (prefix sep (String c r)) eqn:Hp.
    + cbn [contains]. rewrite (prefix_of_empty sep Hne). reflexivity.
    + cbn [contains]. rewrite IH, orb_false_r.
      destruct (prefix sep (String c (first_part sep r))) eqn:Hq;
        [| reflexivity].
      rewrite <- Hp. symmetry.
      apply (prefix_trans sep (String c (first_part sep r)) (String c r) Hq).
      rewrite prefix_cons. apply first_part_prefix.
Qed.

Lemma contains_prefix_mono (sub : string) :
  forall a b : string,
    prefix a b = true -> contains sub a = true -> contains sub b = true.
Proof.
  induction a as [| c a IH]; intros b Hab Hc.
  - cbn [contains] in Hc. rewrite orb_false_r in Hc.
    destruct sub; [| discriminate Hc]. destruct b; reflexivity.
  - destruct b as [| d b]; [discriminate Hab |].
    cbn [prefix] in Hab.
    destruct (ascii_dec c d) as [-> |]; [| discriminate Hab].
    cbn [contains] in *. apply orb_prop in Hc. destruct Hc as [Hc | Hc].
    + rewrite (prefix_trans sub (String d a) (String d b) Hc);
        [reflexivity |].
      rewrite prefix_cons. exact Hab.
    + rewrite (IH b Hab Hc). apply orb_true_r.
Qed.

Lemma contains_lstrip (sub s : string) :
  contains sub (lstrip s) = true -> contains sub s = true.
Proof.
  induction s as [| c r IH]; [trivial |].
  cbn [lstrip]. destruct (is_space c); [| trivial].
  intro H. cbn [contains]. rewrite (IH H). apply orb_true_r.
Qed.

Lemma rstrip_prefix (s : string) : prefix (rstrip s) s = true.
Proof.
  induction s as [| c r IH]; [reflexivity |].
  cbn [rstrip]. destruct (rstrip r) eqn:E.
  - destruct (is_space c); [reflexivity |].
    rewrite prefix_cons. apply prefix_empty.
  - rewrite prefix_cons. exact IH.
Qed.

(** [strip] brings no occurrence of a text that was not there. *)
Lemma contains_strip (sub s : string) :
  contains sub (strip s) = true -> contains sub s = true.
Proof.
  unfold strip. intro H. apply contains_lstrip.
  exact (contains_prefix_mono sub _ _ (rstrip_prefix (lstrip s)) H).
Qed.

Lemma contains_app_l (a b : string) :
  forall s, contains (a ++ b) s = true -> contains a s = true.
Proof.
  induction s as [| c r IH]; intro H.
  - cbn [contains] in *. rewrite orb_false_r in *.
    exact (prefix_app_l a b _ H).
  - cbn [contains] in *. apply orb_prop in H. destruct H as [H | H].
    + rewrite (prefix_app_l a b _ H). reflexivity.
    + rewrite (IH H). apply orb_true_r.
Qed.

(** A text that contains the separator splits in two parts or more. *)
Lemma split_on_two (sep : string) :
  sep <> "" ->
  forall s, contains sep s = true ->
            exists a b rest, split_on sep 0 s = a :: b :: rest.
Proof.
  intro Hne. induction s as [| c r IH]; intro H.
  - cbn [contains] in H. rewrite (prefix_of_empty sep Hne) in H.
    discriminate H.
  - cbn [contains] in H. cbn [split_on].
    destruct (prefix sep (String c r)) eqn:Hp.
    + pose proof (split_on_nonempty sep r (String.length sep - 1)) as Hn.
      destruct (split_on sep (String.length sep - 1) r) as [| b rest];
        [contradiction |].
      exists "", b, rest. reflexivity.
    + cbn [orb] in H. destruct (IH H) as [a [b [rest E]]]. rewrite E.
      exists (String c a), b, rest. reflexivity.
Qed.

Lemma between_fences_some (opening text : string) :
  opening <> "" -> contains opening text = true ->
  exists segment,
    nth_error (split_on opening 0 text) 1 = Some segment
    /\ between_fences opening text = Some (first_part fence segment).
Proof.
  intros Hne Hc. unfold between_fences.
  destruct (split_on_two opening Hne text Hc) as [a [b [rest E]]].
  rewrite E. cbn [nth_error]. exists b. split; [reflexivity |].
  unfold first_part. pose proof (split_on_nonempty fence b 0) as Hn.
  destruct (split_on fence 0 b); [contradiction | reflexivity].
Qed.

(** X20. The extraction of the text of the plan never fails on an index.
    When the answer, blanks around it removed, contains a fence, what is
    handed to the JSON parser contains none; when it contains no fence,
    it is handed over as it is. *)
Theorem plan_text_total (text : string) :
  exists t,
    plan_text text = Some t
    /\ (contains fence (strip text) = true -> contains fence t = false)
    /\ (contains fence (strip text) = false -> t = strip text).
Proof.
  assert (Hclean : forall segment,
             contains fence (strip (first_part fence segment)) = false).
  { intro segment.
    destruct (contains fence (strip (first_part fence segment))) eqn:E;
      [| reflexivity].
    apply contains_strip in E.
    rewrite (first_part_no_sep fence) in E; [discriminate E | discriminate]. }
  unfold plan_text.
  destruct (contains json_fence (strip text)) eqn:Hj.
  - destruct (between_fences_some json_fence (strip text)) as [seg [_ Hb]];
      [discriminate | exact Hj |].
    rewrite Hb. eexists. split; [reflexivity |].
    split; [intros _; apply Hclean |].
    intro Hf. rewrite (contains_app_l fence "json" _ Hj) in Hf.
    discriminate Hf.
  - destruct (contains fence (strip text)) eqn:Hf.
    + destruct (between_fences_some fence (strip text)) as [seg [_ Hb]];
        [discriminate | exact Hf |].
      rewrite Hb. eexists. split; [reflexivity |].
      split; [intros _; apply Hclean | intro H; discriminate H].
    + eexists. split; [reflexivity |].
      split; [intro H; discriminate H | intros _; apply strip_idem].
Qed.

Lemma append_nil_r (s : string) : s ++ "" = s.
Proof. induction s as [| c r IH]; [reflexivity |]. cbn [append]. rewrite IH. reflexivity. Qed.

Lemma lstrip_app (a b : string) :
  b <> "" -> head_outside is_space b -> lstrip (a ++ b) = lstrip a ++ b.
Proof.
  intros Hne Hb. induction a as [| c a IH].
  - cbn [append lstrip]. destruct b as [| d b]; [contradiction |].
    cbn [head_outside] in Hb. cbn [lstrip]. rewrite Hb. reflexivity.
  - cbn [append lstrip]. destruct (is_space c); [exact IH | reflexivity].
Qed.

Lemma rstrip_cons (c : ascii) (r : string) :
  is_space c = false -> rstrip (String c r) = String c (rstrip r).
Proof.
  intro Hc. cbn [rstrip]. destruct (rstrip r); [rewrite Hc |]; reflexivity.
Qed.

Lemma rstrip_keeps (a b : string) :
  rstrip b <> "" ->
  rstrip (a ++ b) = a ++ rstrip b /\ rstrip (a ++ b) <> "".
Proof.
  intro Hb. induction a as [| c a [IH Hn]].
  - split; [reflexivity | exact Hb].
  - cbn [append rstrip]. rewrite IH in *.
    destruct (a ++ rstrip b) eqn:E; [contradiction |].
    split; [reflexivity | discriminate].
Qed.

Lemma all_chars_lstrip (p : ascii -> bool) (s : string) :
  all_chars p s = true -> all_chars p (lstrip s) = true.
Proof.
  induction s as [| c r IH]; [trivial |].
  cbn [lstrip]. destruct (is_space c); [| trivial].
  cbn [all_chars]. intro H. apply andb_prop in H. apply IH. apply H.
Qed.

Lemma head_outside_rstrip (p : ascii -> bool) (s : string) :
  head_outside p s -> head_outside p (rstrip s).
Proof.
  destruct s as [| c r]; [trivial |].
  cbn [head_outside rstrip]. intro H.
  destruct (rstrip r); [destruct (is_space c) |]; cbn [head_outside]; trivial.
Qed.

(** No separator that starts with a backtick is met in a text without
    backtick. *)
Lemma split_on_free (sep' a b : string) :
  all_chars no_tick a = true ->
  split_on (String "`" sep') 0 (a ++ b)
  = match split_on (String "`" sep') 0 b with
    | p :: ps => (a ++ p) :: ps
    | [] => [a]
    end.
Proof.
  induction a as [| c a IH]; intro Ha.
  - cbn [append]. destruct (split_on (String "`" sep') 0 b) eqn:E;
      [| reflexivity].
    exfalso. exact (split_on_nonempty _ _ _ E).
  - cbn [all_chars] in Ha. apply andb_prop in Ha. destruct Ha as [Hc Ha].
    unfold no_tick, other_than in Hc. apply negb_true_iff in Hc.
    apply Ascii.eqb_neq in Hc.
    cbn [append split_on prefix].
    destruct (ascii_dec "`" c) as [E | _]; [exfalso; apply Hc; symmetry; exact E |].
    rewrite (IH Ha).
    destruct (split_on (String "`" sep') 0 b); reflexivity.
Qed.

Lemma first_part_free (sep' a b : string) :
  all_chars no_tick a = true ->
  first_part (String "`" sep') (a ++ b)
  = a ++ first_part (String "`" sep') b.
Proof.
  intro Ha. unfold first_part. rewrite (split_on_free sep' a b Ha).
  pose proof (split_on_nonempty (String "`" sep') b 0) as Hn.
  destruct (split_on (String "`" sep') 0 b); [contradiction | reflexivity].
Qed.

Lemma split_on_skip (sep : string) :
  forall (a rest : string),
    split_on sep (String.length a) (a ++ rest) = split_on sep 0 rest.
Proof.
  induction a as [| c a IH]; intro rest; [reflexivity |].
  cbn [String.length append].
  destruct rest as [| d rest'].
  - cbn [split_on]. apply IH.
  - cbn [split_on]. apply IH.
Qed.

Lemma split_on_match (c0 : ascii) (sep' rest : string) :
  split_on (String c0 sep') 0 (String c0 sep' ++ rest)
  = "" :: split_on (String c0 sep') 0 rest.
Proof.
  cbn [append]. cbn [split_on].
  change (String c0 (sep' ++ rest)) with (String c0 sep' ++ rest).
  rewrite prefix_app_self. cbn [String.length].
  replace (S (String.length sep') - 1)%nat with (String.length sep') by lia.
  rewrite split_on_skip. reflexivity.
Qed.

(** The text between a first fence and what follows it. *)
Lemma between_fences_free (tag lp segment : string) :
  all_chars no_tick lp = true ->
  between_fences (String "`" (String "`" (String "`" tag)))
                 (lp ++ String "`" (String "`" (String "`" tag)) ++ segment)
  = Some (first_part fence
            (first_part (String "`" (String "`" (String "`" tag))) segment)).
Proof.
  intro Hlp. unfold between_fences.
  rewrite (split_on_free _ lp _ Hlp).
  rewrite split_on_match. cbn [nth_error].
  unfold first_part.
  destruct (split_on (String "`" (String "`" (String "`" tag))) 0 segment)
    as [| seg segs] eqn:E; [exfalso; exact (split_on_nonempty _ _ _ E) |].
  cbn [nth_error hd].
  destruct (split_on fence 0 seg) eqn:E2;
    [exfalso; exact (split_on_nonempty _ _ _ E2) | reflexivity].
Qed.

Lemma rstrip_fence (post : string) :
  rstrip (fence ++ post) = fence ++ rstrip post.
Proof.
  unfold fence. cbn [append]. rewrite !rstrip_cons by reflexivity.
  reflexivity.
Qed.

(** The blanks removed around an answer with two fences are those before
    the first and after the second. *)
Lemma strip_fenced (tag pre body post : string) :
  strip (pre ++ String "`" (String "`" (String "`" tag))
             ++ body ++ fence ++ post)
  = lstrip pre ++ String "`" (String "`" (String "`" tag))
           ++ body ++ fence ++ rstrip post.
Proof.
  unfold strip. rewrite lstrip_app; [| discriminate | reflexivity].
  assert (N0 : rstrip (fence ++ post) <> "")
    by (rewrite rstrip_fence; discriminate).
  destruct (rstrip_keeps body _ N0) as [R1 N1].
  destruct (rstrip_keeps (String "`" (String "`" (String "`" tag))) _ N1)
    as [R2 N2].
  destruct (rstrip_keeps (lstrip pre) _ N2) as [R3 _].
  rewrite R3, R2, R1, rstrip_fence. reflexivity.
Qed.

Lemma prefix_tick_outside (x rp : string) :
  head_outside (Ascii.eqb "`") rp -> prefix (String "`" x) rp = false.
Proof.
  destruct rp as [| c r]; [reflexivity |].
  cbn [head_outside prefix]. intro H.
  destruct (ascii_dec "`" c) as [E | _]; [| reflexivity].
  subst c. discriminate H.
Qed.

Lemma first_part_fence_start (q : string) :
  first_part fence (String "`" (String "`" (String "`" q))) = "".
Proof.
  rewrite first_part_cons.
  change (String "`" (String "`" (String "`" q))) with (fence ++ q).
  rewrite prefix_app_self. reflexivity.
Qed.

(** What is left of the text after a tagged fence, cut at the next fence,
    is the text up to that fence. *)
Lemma first_part_tagged (body rp : string) :
  all_chars no_tick body = true ->
  head_outside (Ascii.eqb "`") rp ->
  first_part fence (first_part json_fence (body ++ fence ++ rp)) = body.
Proof.
  intros Hb Hrp. unfold json_fence.
  rewrite (first_part_free _ body _ Hb).
  unfold fence at 2. cbn [append]. rewrite first_part_cons.
  destruct (prefix _ (String "`" (String "`" (String "`" rp)))).
  - unfold fence. rewrite (first_part_free _ body _ Hb).
    unfold first_part. cbn [split_on hd]. rewrite !append_nil_r. reflexivity.
  - rewrite first_part_cons, !prefix_cons, (prefix_tick_outside _ rp Hrp).
    rewrite first_part_cons, !prefix_cons, (prefix_tick_outside _ rp Hrp).
    unfold fence. rewrite (first_part_free _ body _ Hb).
    rewrite first_part_fence_start. apply append_nil_r.
Qed.

(** X21. An answer with a fence tagged [json]: when there is no backtick
    before the fence nor in the text up to the closing fence, and what
    follows the closing fence does not start with a backtick, the JSON
    parser receives the text between the two fences, blanks around it
    removed. *)
Theorem plan_text_json_fenced (pre body post : string) :
  all_chars no_tick pre = true ->
  all_chars no_tick body = true ->
  head_outside (Ascii.eqb "`") post ->
  plan_text (pre ++ json_fence ++ body ++ fence ++ post)
  = Some (strip body).
Proof.
  intros Hpre Hbody Hpost. unfold plan_text, json_fence.
  rewrite (strip_fenced "json" pre body post).
  rewrite (contains_app _ (lstrip pre) _ (prefix_app_self _ _)).
  rewrite (between_fences_free "json" (lstrip pre) _
             (all_chars_lstrip _ _ Hpre)).
  change (String "`" (String "`" (String "`" "json"))) with json_fence.
  rewrite (first_part_tagged body (rstrip post) Hbody
             (head_outside_rstrip _ _ Hpost)).
  reflexivity.
Qed.

Lemma plan_text_json_fenced_witness :
  plan_text ("Here is the plan: " ++ json_fence ++ " [] " ++ fence
                                  ++ " Enjoy.")
  = Some "[]".
Proof.
  rewrite (plan_text_json_fenced "Here is the plan: " " [] " " Enjoy.");
    reflexivity.
Defined.

(** X22. An answer with a fence without tag, and no fence tagged [json]
    anywhere: when there is no backtick before the fence nor in the text
    up to the closing fence, the JSON parser receives the text between
    the two fences, blanks around it removed, whatever follows. *)
Theorem plan_text_plain_fenced (pre body post : string) :
  all_chars no_tick pre = true ->
  all_chars no_tick body = true ->
  contains json_fence (strip (pre ++ fence ++ body ++ fence ++ post))
  = false ->
  plan_text (pre ++ fence ++ body ++ fence ++ post) = Some (strip body).
Proof.
  intros Hpre Hbody Hnoj.
  assert (Hs : strip (pre ++ fence ++ body ++ fence ++ post)
               = lstrip pre ++ fence ++ body ++ fence ++ rstrip post)
    by exact (strip_fenced "" pre body post).
  assert (Hc : contains fence
                 (lstrip pre ++ fence ++ body ++ fence ++ rstrip post)
               = true)
    by exact (contains_app fence (lstrip pre) _ (prefix_app_self fence _)).
  assert (Hb : between_fences fence
                 (lstrip pre ++ fence ++ body ++ fence ++ rstrip post)
               = Some (first_part fence
                         (first_part fence (body ++ fence ++ rstrip post))))
    by exact (between_fences_free "" (lstrip pre) _
                (all_chars_lstrip _ _ Hpre)).
  assert (Hf1 : first_part fence (body ++ fence ++ rstrip post) = body).
  { transitivity (body ++ first_part fence (fence ++ rstrip post));
      [exact (first_part_free _ body _ Hbody) |].
    transitivity (body ++ ""); [| apply append_nil_r].
    f_equal. exact (first_part_fence_start (rstrip post)). }
  assert (Hf2 : first_part fence body = body).
  { transitivity (first_part fence (body ++ ""));
      [rewrite append_nil_r; reflexivity |].
    transitivity (body ++ first_part fence "");
      [exact (first_part_free _ body "" Hbody) | apply append_nil_r]. }
  unfold plan_text. rewrite Hs in *. rewrite Hnoj, Hc, Hb, Hf1, Hf2.
  reflexivity.
Qed.

Lemma plan_text_plain_fenced_witness :
  plan_text ("Plan: " ++ fence ++ " [] " ++ fence ++ " and ``` more")
  = Some "[]".
Proof.
  rewrite (plan_text_plain_fenced "Plan: " " [] " " and ``` more");
    reflexivity.
Defined.

(** * What the parsers may raise *)

Lemma float_of_str_raises (s : string) (e : exn) :
  float_of_str s = Raise e -> e = ValueError.
Proof.
  unfold float_of_str.
  destruct (strip_underscores "000" (num_strip s));
    [| intro H; inversion H; reflexivity].
  destruct (take_sign s0) as [neg body].
  destruct (str_in (lower body) ["inf"; "infinity"]); [discriminate |].
  destruct (String.eqb (lower body) "nan"); [discriminate |].
  destruct (parse_decimal body) as [[n k] |]; [discriminate |].
  intro H. inversion H. reflexivity.
Qed.

Lemma int_of_str_raises (s : string) (e : exn) :
  int_of_str s = Raise e -> e = ValueError.
Proof.
  unfold int_of_str.
  destruct (strip_underscores "000" (num_strip s));
    [| intro H; inversion H; reflexivity].
  destruct (take_sign s0) as [neg ds].
  destruct ds; [intro H; inversion H; reflexivity |].
  destruct (all_chars is_digit (String a ds) && _); [discriminate |].
  intro H. inversion H. reflexivity.
Qed.

Lemma int_of_float_raises (f : float) (e : exn) :
  int_of_float f = Raise e -> e = ValueError \/ e = OverflowError.
Proof.
  unfold int_of_float. destruct (Prim2SF f); intro H; inversion H; auto.
Qed.

Lemma float_of_int_raises (n : Z) (e : exn) :
  float_of_int n = Raise e -> e = OverflowError.
Proof.
  unfold float_of_int. destruct (is_infinity _); intro H; inversion H.
  reflexivity.
Qed.

Lemma division_raises (e : exn) :
  (forall a b, int_truediv a b = Raise e ->
               e = ZeroDivisionError \/ e = OverflowError)
  /\ (forall x b, float_truediv_int x b = Raise e ->
                  e = ZeroDivisionError \/ e = OverflowError).
Proof.
  split.
  - intros a b. unfold int_truediv. destruct (b =? 0)%Z.
    + intro H. inversion H. auto.
    + destruct (is_infinity _); intro H; inversion H. auto.
  - intros x b. unfold float_truediv_int.
    destruct (float_of_int b) as [fb | e'] eqn:E; cbn [bind].
    + destruct (PrimFloat.eqb fb zero); intro H; inversion H. auto.
    + intro H. inversion H; subst. right. exact (float_of_int_raises b e E).
Qed.

(** X23. [_parse_duration] raises nothing but [ValueError] and
    [OverflowError]. *)
Theorem parse_duration_raises (s : string) (e : exn) :
  _parse_duration s = Raise e -> e = ValueError \/ e = OverflowError.
Proof.
  unfold _parse_duration.
  destruct (match_number_unit dist_units _) as [[g1 unit] |].
  { destruct (float_of_str g1) eqn:E; cbn [bind]; [discriminate |].
    intro H. inversion H; subst. left. exact (float_of_str_raises _ _ E). }
  destruct (match_number_unit time_units _) as [[g1 unit] |].
  { destruct (float_of_str g1) eqn:E; cbn [bind].
    - destruct (int_of_float _) eqn:E2; cbn [bind]; [discriminate |].
      intro H. inversion H; subst. exact (int_of_float_raises _ _ E2).
    - intro H. inversion H; subst. left. exact (float_of_str_raises _ _ E). }
  destruct (contains ":" _).
  { destruct (Nat.eqb _ 2).
    - destruct (int_of_str (nth 0 _ "")) eqn:E1; cbn [bind].
      + destruct (int_of_str (nth 1 _ "")) eqn:E2; cbn [bind];
          [discriminate |].
        intro H. inversion H; subst. left. exact (int_of_str_raises _ _ E2).
      + intro H. inversion H; subst. left. exact (int_of_str_raises _ _ E1).
    - destruct (int_of_str (nth 0 _ "")) eqn:E1; cbn [bind];
        [discriminate |].
      intro H. inversion H; subst. left. exact (int_of_str_raises _ _ E1). }
  destruct (float_of_str _) eqn:E; cbn [bind].
  - destruct (int_of_float _) eqn:E2; cbn [bind]; [discriminate |].
    destruct (int_of_float_raises _ _ E2) as [-> | ->];
      [discriminate | intro H; inversion H; auto].
  - rewrite (float_of_str_raises _ _ E). discriminate.
Qed.

Lemma parse_duration_raises_witness :
  ValueError = ValueError \/ ValueError = OverflowError.
Proof.
  apply (parse_duration_raises "10:00 easy" ValueError).
  vm_compute. reflexivity.
Defined.

Lemma span_all (p : ascii -> bool) :
  forall s a b, span p s = (a, b) -> all_chars p a = true.
Proof.
  induction s as [| c r IH]; intros a b H.
  - inversion H. reflexivity.
  - cbn [span] in H. destruct (p c) eqn:Hc.
    + destruct (span p r) as [a' b'] eqn:E.
      pose proof (IH a' b' eq_refl) as IH'.
      inversion H; subst. cbn [all_chars]. rewrite Hc. exact IH'.
    + inversion H. reflexivity.
Qed.

(** The groups of the pace pattern are digits, one or more. *)
Lemma match_pace_digits (s g1 g2 : string) (u : option string) :
  match_pace s = Some (g1, g2, u) ->
  all_chars is_digit g1 = true /\ g1 <> ""
  /\ all_chars is_digit g2 = true /\ g2 <> "".
Proof.
  unfold match_pace.
  destruct (span is_digit s) as [m r1] eqn:E1.
  pose proof (span_all is_digit _ _ _ E1) as Hm.
  destruct m as [| cm rm]; [discriminate |].
  destruct r1 as [| c r2]; [discriminate |].
  destruct c as [[] [] [] [] [] [] [] []]; try discriminate.
  destruct (span is_digit r2) as [sec r3] eqn:E2.
  pose proof (span_all is_digit _ _ _ E2) as Hs.
  destruct sec as [| cs rs]; [discriminate |].
  assert (Hres : forall x, Some (String cm rm, String cs rs, x)
                           = Some (g1, g2, u) ->
                           all_chars is_digit g1 = true /\ g1 <> ""
                           /\ all_chars is_digit g2 = true /\ g2 <> "").
  { intros x H. inversion H; subst.
    repeat split; try assumption; discriminate. }
  destruct (at_end r3); [apply Hres |].
  destruct (match_alt_end _ _); [apply Hres | discriminate].
Qed.

(** X24. [_parse_target] raises on a pace only: [ZeroDivisionError] or
    [OverflowError] from the division, or [ValueError] when the minutes
    or the seconds have more digits than the limit of [int]. *)
Theorem parse_target_raises (target : string) (e : exn) :
  _parse_target target = Raise e ->
  exists g1 g2 u,
    match_pace (strip target) = Some (g1, g2, u)
    /\ (e = ZeroDivisionError \/ e = OverflowError
        \/ (e = ValueError
            /\ (max_str_digits < Z.of_nat (String.length g1)
                \/ max_str_digits < Z.of_nat (String.length g2))%Z)).
Proof.
  unfold _parse_target.
  destruct (String.eqb target "" || str_in (lower target) _); [discriminate |].
  destruct (match_pace (strip target)) as [[[g1 g2] u] |] eqn:Hm.
  - intro H. exists g1, g2, u. split; [reflexivity |]. revert H.
    destruct (match_pace_digits _ _ _ _ Hm) as [H1 [N1 [H2 N2]]].
    rewrite (int_of_str_digits_limit g1 H1 N1),
      (int_of_str_digits_limit g2 H2 N2).
    destruct (Z.leb_spec (Z.of_nat (String.length g1)) max_str_digits)
      as [L1 | L1];
      [| intro H; inversion H; right; right; split; [reflexivity | left; exact L1]].
    destruct (Z.leb_spec (Z.of_nat (String.length g2)) max_str_digits)
      as [L2 | L2];
      [| intro H; inversion H; right; right; split; [reflexivity | right; exact L2]].
    cbn [bind]. destruct (division_raises e) as [Hi Hf].
    destruct (match u with Some u0 => String.eqb u0 "km"
                      | None => (digits_value 0 g1 <? 10)%Z end).
    + destruct (int_truediv _ _) eqn:E; cbn [bind]; [discriminate |].
      intro H. inversion H; subst.
      destruct (Hi _ _ E) as [-> | ->]; [left | right; left]; reflexivity.
    + destruct (float_truediv_int _ _) eqn:E; cbn [bind]; [discriminate |].
      intro H. inversion H; subst.
      destruct (Hf _ _ E) as [-> | ->]; [left | right; left]; reflexivity.
  - destruct (contains "zone" (lower target)); [| discriminate].
    destruct (search_digit target) as [d |] eqn:Hd; [| discriminate].
    rewrite (digit_char_value d (search_digit_is_digit _ _ Hd)).
    discriminate.
Qed.

Lemma parse_target_raises_witness :
  exists g1 g2 u,
    match_pace (strip "0:00") = Some (g1, g2, u)
    /\ (ZeroDivisionError = ZeroDivisionError
        \/ ZeroDivisionError = OverflowError
        \/ (ZeroDivisionError = ValueError
            /\ (max_str_digits < Z.of_nat (String.length g1)
                \/ max_str_digits < Z.of_nat (String.length g2))%Z)).
Proof.
  apply (parse_target_raises "0:00" ZeroDivisionError).
  vm_compute. reflexivity.
Defined.

(** * Further properties of the summary *)

(** X25. [analyze_fitness] never raises: the divisions are made by
    counts that are not zero; the result has data exactly when there is
    an activity. *)
Theorem analyze_fitness_returns (py_sum : list float -> float)
        (activities : list Activity) :
  exists m, analyze_fitness py_sum activities = Ok m
            /\ (has_data m = true <-> activities <> []).
Proof.
  destruct activities as [| a rest].
  - eexists. split; [reflexivity |]. cbn [has_data].
    split; [discriminate | intro H; contradiction].
  - eexists. split; [apply analyze_fitness_nonempty |]. cbn [has_data].
    split; [discriminate | reflexivity].
Qed.

(** X26. On activities, [total_runs] counts all of them and
    [recent_runs] holds the first ten of them at most, in the order
    given. *)
Theorem analyze_fitness_recent (py_sum : list float -> float)
        (a : Activity) (rest : list Activity) :
  exists m recent later,
    analyze_fitness py_sum (a :: rest) = Ok m
    /\ total_runs m = Some (Z.of_nat (List.length (a :: rest)))
    /\ recent_runs m = Some recent
    /\ (a :: rest = recent ++ later)%list
    /\ List.length recent = Nat.min 10 (List.length (a :: rest)).
Proof.
  eexists. exists (firstn 10 (a :: rest)), (skipn 10 (a :: rest)).
  split; [apply analyze_fitness_nonempty |].
  cbn [total_runs recent_runs].
  split; [reflexivity |]. split; [reflexivity |].
  split; [symmetry; apply firstn_skipn | apply length_firstn].
Qed.

(** * The code of the second factor *)

Lemma keep_all (p : ascii -> bool) (s : string) :
  all_chars p (keep p s) = true.
Proof.
  induction s as [| c r IH]; [reflexivity |].
  cbn [keep]. destruct (p c) eqn:Hc; [| exact IH].
  cbn [all_chars]. rewrite Hc. exact IH.
Qed.

(** X27. The code returned by [mfa_prompt] is made of the digits of the
    first line typed that has six of them, whatever else the line
    contains; the lines before it are refused. *)
Theorem mfa_prompt_first_valid (before : list string) (line : string)
        (after : list string) :
  Forall (fun l => String.length (keep isdigit l) <> 6%nat) before ->
  String.length (keep isdigit line) = 6%nat ->
  mfa_prompt (before ++ line :: after)%list = Some (keep isdigit line)
  /\ all_chars isdigit (keep isdigit line) = true.
Proof.
  intros Hbefore Hline. split; [| apply keep_all].
  induction Hbefore as [| l before Hl _ IH].
  - cbn [app mfa_prompt]. rewrite Hline. reflexivity.
  - cbn [app mfa_prompt]. apply Nat.eqb_neq in Hl. rewrite Hl. exact IH.
Qed.

Lemma mfa_prompt_first_valid_witness :
  mfa_prompt (["12345"; "abc"] ++ "123 456" :: ["999999"])%list
  = Some "123456"
  /\ all_chars isdigit (keep isdigit "123 456") = true.
Proof.
  apply (mfa_prompt_first_valid ["12345"; "abc"] "123 456" ["999999"]).
  - repeat constructor; vm_compute; discriminate.
  - reflexivity.
Defined.

(** * The text that [int] and [float] refuse *)

(** A field of 4301 digits is over the limit of [int], in a duration and
    in a pace; 4300 digits are within it. *)
Lemma digit_limit_examples :
  _parse_duration (copies 4301 "1" ++ ":00") = Raise ValueError
  /\ _parse_target (copies 4301 "1" ++ ":00") = Raise ValueError
  /\ _parse_target (copies 4301 "0" ++ ":00") = Raise ValueError
  /\ int_of_str (copies 4300 "0" ++ "_7") = Raise ValueError
  /\ int_of_str (copies 4299 "0" ++ "_7") = Ok 7%Z.
Proof. repeat split; vm_compute; reflexivity. Qed.

(** The separators U+001C to U+001F are blanks for [str.strip()] and for
    the patterns, and no blanks for [int] and [float]. *)
Lemma separator_examples :
  strip (String "031" "1:30") = "1:30"
  /\ int_of_str (String "1" (String "031" "")) = Raise ValueError
  /\ float_of_str (String "031" "1") = Raise ValueError
  /\ _parse_duration (String "1" (String "031" ":30")) = Raise ValueError
  /\ int_of_str (String "009" (String "160" "12 ")) = Ok 12%Z.
Proof. repeat split; vm_compute; reflexivity. Qed.
